(** * Verification of the custom-contract tools of the CDP chatbot

    Source: [agentkit/python/examples/langchain-cdp-chatbot/chatbot.py].

    The development embeds the contract details, the two helper methods
    ([invoke_contract_function], [read_contract_function]), the wrappers,
    the small parser helpers and the tool catalogue of [initialize_agent].

    Conventions of the embedding.
    - A Python [str] is a Rocq [string]; each character stands for the code
      point of the same number, so the inputs covered are the strings of
      code points below 256.
    - A Python call that may raise returns [exn + A] ([inl] is the raised
      exception).  Code that talks to the wallet provider runs in the monad
      [M], which threads the provider's state and records every call made
      to a collaborator.
    - The built-ins the program relies on ([str.strip], [str.split], [int],
      [decimal.Decimal] with the default context) are modelled after
      CPython 3.  [float] and [str] of a float are fields of the class
      [Interp], next to the interpreter's integer-literal digit limit. *)

From Stdlib Require Import ZArith List String Ascii Bool Lia.
From Stdlib Require Import SpecFloat.
Import ListNotations.

Local Open Scope string_scope.
Local Open Scope list_scope.
Local Open Scope Z_scope.

(** String concatenation, written apart from list append. *)
Infix "+++" := String.append (at level 60, right associativity).

(* ================================================================== *)
(** * Python strings *)
(* ================================================================== *)

Module PyStr.

Definition code (c : ascii) : Z := Z.of_N (N_of_ascii c).

Definition chr (n : Z) : ascii := ascii_of_N (Z.to_N n).

(** [str.isspace] on one code point below 256: TAB..CR, FS..US, SPACE,
    NEL and NBSP.  This is the set [str.strip()] and [str.split()] use
    when called without arguments. *)
Definition is_space (c : ascii) : bool :=
  let n := code c in
  ((9 <=? n) && (n <=? 13)) || ((28 <=? n) && (n <=? 32))
  || (n =? 133) || (n =? 160).

Definition is_digit (c : ascii) : bool :=
  let n := code c in (48 <=? n) && (n <=? 57).

Definition digit_value (c : ascii) : Z := code c - 48.

Definition is_empty (s : string) : bool :=
  match s with EmptyString => true | String _ _ => false end.

Fixpoint lstrip (s : string) : string :=
  match s with
  | EmptyString => EmptyString
  | String c s' => if is_space c then lstrip s' else s
  end.

Fixpoint rstrip (s : string) : string :=
  match s with
  | EmptyString => EmptyString
  | String c s' =>
      let r := rstrip s' in
      if is_space c && is_empty r then EmptyString else String c r
  end.

(** [s.strip()] *)
Definition strip (s : string) : string := rstrip (lstrip s).

(** [s.split()]: maximal runs of non-whitespace characters, in order.
    [cur] is the run being read. *)
Fixpoint split_from (cur : string) (s : string) : list string :=
  match s with
  | EmptyString => if is_empty cur then [] else [cur]
  | String c s' =>
      if is_space c
      then (if is_empty cur then split_from EmptyString s'
            else cur :: split_from EmptyString s')
      else split_from (cur +++ String c EmptyString) s'
  end.

Definition split (s : string) : list string := split_from EmptyString s.

(** [s.replace(old, "")] for a one-character [old]. *)
Fixpoint remove_char (old : ascii) (s : string) : string :=
  match s with
  | EmptyString => EmptyString
  | String c s' =>
      if Ascii.eqb c old then remove_char old s'
      else String c (remove_char old s')
  end.

(** ASCII lower-casing, for the case-insensitive keywords of numeric
    literals. *)
Definition lower (c : ascii) : ascii :=
  let n := code c in
  if (65 <=? n) && (n <=? 90) then chr (n + 32) else c.

Fixpoint lower_str (s : string) : string :=
  match s with
  | EmptyString => EmptyString
  | String c s' => String (lower c) (lower_str s')
  end.

(** Longest prefix of decimal digits, and the rest. *)
Fixpoint span_digits (s : string) : string * string :=
  match s with
  | EmptyString => (EmptyString, EmptyString)
  | String c s' =>
      if is_digit c
      then let '(d, r) := span_digits s' in (String c d, r)
      else (EmptyString, s)
  end.

(** Value of a string of decimal digits, most significant first. *)
Fixpoint digits_value_from (acc : Z) (s : string) : Z :=
  match s with
  | EmptyString => acc
  | String c s' => digits_value_from (10 * acc + digit_value c) s'
  end.

Definition digits_value (s : string) : Z := digits_value_from 0 s.

(** [str(n)] of an integer.  [fuel] bounds the number of digits. *)
Fixpoint digits_of_pos (fuel : nat) (n : Z) (acc : string) : string :=
  match fuel with
  | O => acc
  | S fuel' =>
      let acc' := String (chr (48 + n mod 10)) acc in
      if n <? 10 then acc' else digits_of_pos fuel' (n / 10) acc'
  end.

Definition str_of_int (n : Z) : string :=
  let body := digits_of_pos (S (Z.to_nat (Z.log2 (Z.abs n)))) (Z.abs n)
                EmptyString in
  if n <? 0 then String "-" body else body.

Definition all_space (s : string) : bool :=
  forallb is_space (list_ascii_of_string s).

(** [repr(s)] of a string: quotes chosen as CPython does, backslash
    escapes for the quote, the backslash, TAB, LF, CR and every
    non-printable code point. *)
Definition hex_digit (n : Z) : ascii :=
  if n <? 10 then chr (48 + n) else chr (87 + n).

Definition printable (c : ascii) : bool :=
  let n := code c in
  ((32 <=? n) && (n <=? 126)) || ((161 <=? n) && negb (n =? 173)).

Fixpoint contains (q : ascii) (s : string) : bool :=
  match s with
  | EmptyString => false
  | String c s' => Ascii.eqb c q || contains q s'
  end.

Definition backslash : ascii := chr 92.
Definition squote : ascii := chr 39.
Definition dquote : ascii := chr 34.

Fixpoint repr_body (q : ascii) (s : string) : string :=
  match s with
  | EmptyString => EmptyString
  | String c s' =>
      let n := code c in
      let rest := repr_body q s' in
      if Ascii.eqb c q || Ascii.eqb c backslash
      then String backslash (String c rest)
      else if n =? 9 then String backslash (String "t" rest)
      else if n =? 10 then String backslash (String "n" rest)
      else if n =? 13 then String backslash (String "r" rest)
      else if printable c then String c rest
      else String backslash
             (String "x" (String (hex_digit (n / 16))
                            (String (hex_digit (n mod 16)) rest)))
  end.

Definition repr (s : string) : string :=
  let q := if contains squote s && negb (contains dquote s)
           then dquote else squote in
  String q (repr_body q s +++ String q EmptyString).

End PyStr.

(* ================================================================== *)
(** * Python exceptions *)
(* ================================================================== *)

(** The exception classes that occur.  All of them derive from
    [Exception]; [CollaboratorError] stands for whatever class a
    collaborator raises that is none of the built-in ones below. *)
Inductive exn_class : Type :=
| ValueError
| OverflowError
| InvalidOperation      (* decimal.InvalidOperation *)
| DecimalOverflow       (* decimal.Overflow *)
| CollaboratorError.

(** A raised exception: its class and [str(e)]. *)
Record exn : Type := Exn { exn_class_of : exn_class; exn_str : string }.

Definition exn_class_eqb (a b : exn_class) : bool :=
  match a, b with
  | ValueError, ValueError
  | OverflowError, OverflowError
  | InvalidOperation, InvalidOperation
  | DecimalOverflow, DecimalOverflow
  | CollaboratorError, CollaboratorError => true
  | _, _ => false
  end.

(** [isinstance(e, cls)] for the [except cls:] clauses of the program. *)
Definition isinstance (e : exn) (cls : exn_class) : bool :=
  exn_class_eqb (exn_class_of e) cls.

(* ================================================================== *)
(** * [int(str)] *)
(* ================================================================== *)

Module PyInt.
Import PyStr.

(** Digits with single underscores between them: value and number of
    digits read, or [None] when the text is no such run.  [prev] is the
    previous character ([None] at the start). *)
Fixpoint scan (prev : option ascii) (acc : Z) (count : Z) (s : string)
  : option (Z * Z) :=
  match s with
  | EmptyString =>
      match prev with
      | None => None
      | Some p => if Ascii.eqb p "_" then None else Some (acc, count)
      end
  | String c s' =>
      if is_digit c
      then scan (Some c) (10 * acc + digit_value c) (count + 1) s'
      else if Ascii.eqb c "_"
      then match prev with
           | None => None
           | Some p => if Ascii.eqb p "_" then None
                       else scan (Some c) acc count s'
           end
      else None
  end.

Definition invalid_literal (s : string) : exn :=
  Exn ValueError ("invalid literal for int() with base 10: " +++ repr s).

Definition too_many_digits (limit count : Z) : exn :=
  Exn ValueError
    ("Exceeds the limit (" +++ str_of_int limit
     +++ " digits) for integer string conversion: value has "
     +++ str_of_int count
     +++ " digits; use sys.set_int_max_str_digits() to increase the limit").

(** [int(s)] for a string [s] without whitespace (the program applies
    it to tokens produced by [split()], which have none, so the
    stripping [int] does first is left out).  [max_str_digits] is
    [sys.get_int_max_str_digits()]: [0] switches the limit off. *)
Definition of_str (max_str_digits : Z) (s : string) : exn + Z :=
  let '(neg, body) :=
    match s with
    | String "-" r => (true, r)
    | String "+" r => (false, r)
    | _ => (false, s)
    end in
  match scan None 0 0 body with
  | None => inl (invalid_literal s)
  | Some (v, count) =>
      if (640 <? count) && (0 <? max_str_digits) && (max_str_digits <? count)
      then inl (too_many_digits max_str_digits count)
      else inr (if neg then - v else v)
  end.

End PyInt.

(* ================================================================== *)
(** * [decimal.Decimal] under the default context *)
(* ================================================================== *)

Module Decimal.
Import PyStr.

(** A decimal value: [(-1)^sign * coeff * 10^exp] with [0 <= coeff], an
    infinity, or a NaN (quiet or signaling; the diagnostic digits a NaN
    literal may carry play no part below and are dropped). *)
Inductive t : Type :=
| Finite (sign : bool) (coeff : Z) (exp : Z)
| Infinity (sign : bool)
| NaN (sign : bool) (signaling : bool).

(** The default context: 28 significant digits, ROUND_HALF_EVEN,
    exponents within +-999999, no clamping; [InvalidOperation],
    [DivisionByZero] and [Overflow] are trapped (they raise), the other
    signals only set flags. *)
Definition prec : Z := 28.
Definition Emax : Z := 999999.
Definition Emin : Z := -999999.
Definition Etiny : Z := Emin - prec + 1.
Definition Etop : Z := Emax - prec + 1.

(** A trapped signal: the exception's text is the list of the signal
    classes. *)
Definition signal (cls : exn_class) (condition : string) : exn :=
  Exn cls ("[<class 'decimal." +++ condition +++ "'>]").

Definition conversion_syntax : exn := signal InvalidOperation "ConversionSyntax".
Definition invalid_operation : exn := signal InvalidOperation "InvalidOperation".
Definition overflow : exn := signal DecimalOverflow "Overflow".

(** [len(str(c))] for [0 <= c]: the number of decimal digits. *)
Fixpoint ndigits_fuel (fuel : nat) (c : Z) : Z :=
  match fuel with
  | O => 1
  | S fuel' => if c <? 10 then 1 else 1 + ndigits_fuel fuel' (c / 10)
  end.

Definition ndigits (c : Z) : Z := ndigits_fuel (Z.to_nat (Z.log2 c)) c.

(** [Decimal(n)] for an integer [n]. *)
Definition of_int (n : Z) : t := Finite (n <? 0) (Z.abs n) 0.

(** The sign of a literal and what follows it. *)
Definition split_sign (s : string) : bool * string :=
  match s with
  | String "-" r => (true, r)
  | String "+" r => (false, r)
  | _ => (false, s)
  end.

Definition all_digits (s : string) : bool :=
  forallb is_digit (list_ascii_of_string s).

(** The exponent part of a numeric literal: empty, or [E], an optional
    sign and at least one digit. *)
Definition parse_exponent (s : string) : option Z :=
  match s with
  | EmptyString => Some 0
  | String c r =>
      if Ascii.eqb (lower c) "e"
      then let '(neg, ds) := split_sign r in
           if is_empty ds || negb (all_digits ds) then None
           else Some (if neg then - digits_value ds else digits_value ds)
      else None
  end.

(** The widest exponent range of the library (libmpdec on a 64-bit
    build): [decimal.MAX_EMAX] and [decimal.MIN_ETINY]. *)
Definition MAX_EMAX : Z := 999999999999999999.
Definition MIN_ETINY : Z := -1999999999999999997.

(** A finite value the constructor can hold exactly: its exponent is
    not below [MIN_ETINY] and its adjusted exponent not above
    [MAX_EMAX]. *)
Definition in_range (c e : Z) : bool :=
  (MIN_ETINY <=? e) && (e + ndigits c - 1 <=? MAX_EMAX).

(** [Decimal(value)] for a string: surrounding whitespace is stripped
    and every underscore removed; then a sign and either digits with an
    optional fraction and exponent, [Inf], [Infinity], [NaN] or [sNaN]
    (any letter case).  The conversion is exact: a number outside the
    library's exponent range signals [InvalidOperation] like a text
    that is no number. *)
Definition of_str (value : string) : exn + t :=
  let '(sign, body) := split_sign (remove_char "_" (strip value)) in
  let low := lower_str body in
  if String.eqb low "inf" || String.eqb low "infinity"
  then inr (Infinity sign)
  else if String.prefix "nan" low && all_digits (substring 3 (length low) low)
  then inr (NaN sign false)
  else if String.prefix "snan" low && all_digits (substring 4 (length low) low)
  then inr (NaN sign true)
  else
    let '(intpart, r1) := span_digits body in
    let '(fracpart, r2) :=
      match r1 with
      | String "." r => span_digits r
      | _ => (EmptyString, r1)
      end in
    if is_empty intpart && is_empty fracpart then inl conversion_syntax
    else match parse_exponent r2 with
         | None => inl conversion_syntax
         | Some e =>
             let c := digits_value (intpart +++ fracpart) in
             let exp := e - Z.of_nat (length fracpart) in
             if in_range c exp then inr (Finite sign c exp)
             else inl invalid_operation
         end.

(** [Decimal._fix]: round a finite value to the context.  [changed] is
    what the rounding function returns: 1 to round the kept digits up,
    0 when the dropped digits are all zero, -1 otherwise. *)
Definition round_half_even (c k : Z) : Z :=
  let q := c / 10 ^ k in
  let r := c mod 10 ^ k in
  let half := 5 * 10 ^ (k - 1) in
  if (r =? half) && Z.even q then -1
  else if half <=? r then 1
  else if r =? 0 then 0
  else -1.

Definition fix_ (d : t) : exn + t :=
  match d with
  | Finite sign c e =>
      if c =? 0 then
        inr (Finite sign 0 (Z.min (Z.max e Etiny) Emax))
      else
        let exp_min := ndigits c + e - prec in
        if Etop <? exp_min then inl overflow
        else
          let self_is_subnormal := exp_min <? Etiny in
          let exp_min := if self_is_subnormal then Etiny else exp_min in
          if e <? exp_min then
            let digits := ndigits c + e - exp_min in
            let '(c, digits) := if digits <? 0 then (1, 0) else (c, digits) in
            let k := ndigits c - digits in
            let changed := round_half_even c k in
            let coeff := c / 10 ^ k in
            let '(coeff, exp_min) :=
              if 0 <? changed then
                if prec <? ndigits (coeff + 1)
                then ((coeff + 1) / 10, exp_min + 1)
                else (coeff + 1, exp_min)
              else (coeff, exp_min) in
            if Etop <? exp_min then inl overflow
            else inr (Finite sign coeff exp_min)
          else inr d
  | _ => inr d
  end.

(** [self * other] *)
Definition mul (self other : t) : exn + t :=
  match self, other with
  | NaN _ true, _ | _, NaN _ true => inl invalid_operation
  | NaN s false, _ => inr (NaN s false)
  | _, NaN s false => inr (NaN s false)
  | Infinity s1, Infinity s2 => inr (Infinity (xorb s1 s2))
  | Infinity s1, Finite s2 c _ | Finite s2 c _, Infinity s1 =>
      if c =? 0 then inl invalid_operation else inr (Infinity (xorb s1 s2))
  | Finite s1 c1 e1, Finite s2 c2 e2 =>
      fix_ (Finite (xorb s1 s2) (c1 * c2) (e1 + e2))
  end.

(** [Decimal._cmp] on finite values: -1, 0 or 1.  Zeros first, then
    the signs, then the adjusted exponents, and only for equal adjusted
    exponents the coefficients padded to a common exponent. *)
Definition adjusted (c e : Z) : Z := e + ndigits c - 1.

Definition sign_value (sign : bool) : Z := if sign then -1 else 1.

Definition pad (c n : Z) : Z := if 0 <? n then c * 10 ^ n else c.

Definition cmp_finite (s1 : bool) (c1 e1 : Z) (s2 : bool) (c2 e2 : Z) : Z :=
  if c1 =? 0 then (if c2 =? 0 then 0 else - sign_value s2)
  else if c2 =? 0 then sign_value s1
  else if negb s1 && s2 then 1
  else if s1 && negb s2 then -1
  else
    let self_adjusted := adjusted c1 e1 in
    let other_adjusted := adjusted c2 e2 in
    if self_adjusted =? other_adjusted then
      let self_padded := pad c1 (e1 - e2) in
      let other_padded := pad c2 (e2 - e1) in
      if self_padded =? other_padded then 0
      else if self_padded <? other_padded then - sign_value s1
      else sign_value s1
    else if other_adjusted <? self_adjusted then sign_value s1
    else - sign_value s1.

(** [self > other]: an ordering comparison that involves a NaN signals
    [InvalidOperation]. *)
Definition gt (self other : t) : exn + bool :=
  match self, other with
  | NaN _ _, _ | _, NaN _ _ => inl invalid_operation
  | Infinity s1, Infinity s2 => inr (negb s1 && s2)
  | Infinity s1, Finite _ _ _ => inr (negb s1)
  | Finite _ _ _, Infinity s2 => inr s2
  | Finite s1 c1 e1, Finite s2 c2 e2 =>
      inr (0 <? cmp_finite s1 c1 e1 s2 c2 e2)
  end.

(** [int(self)]: truncation toward zero.  With a negative exponent the
    last [-exp] digits of the coefficient are cut off, and nothing is
    left when it has no more digits than that. *)
Definition to_int (self : t) : exn + Z :=
  match self with
  | NaN _ _ => inl (Exn ValueError "cannot convert NaN to integer")
  | Infinity _ => inl (Exn OverflowError "cannot convert Infinity to integer")
  | Finite sign c e =>
      let s := sign_value sign in
      if 0 <=? e then inr (s * c * 10 ^ e)
      else if ndigits c <=? - e then inr (s * 0)
      else inr (s * (c / 10 ^ (- e)))
  end.

End Decimal.

(** [int(val * Decimal(10**18))], the conversion from an amount in ETH
    to wei that [parse_withdraw_args] and [invoke_contract_function]
    both write out. *)
Definition eth_to_wei (val : Decimal.t) : exn + Z :=
  match Decimal.mul val (Decimal.of_int (10 ^ 18)) with
  | inl e => inl e
  | inr product => Decimal.to_int product
  end.

(* ================================================================== *)
(** * Contract details *)
(* ================================================================== *)

Definition SMART_CONTRACT_ADDRESS : string :=
  "0xa633656593bB24252A55A468146fe9536eA899cB".

(** One input or output of an ABI entry. *)
Record abi_param : Type := AbiParam {
  internalType : string;
  param_name : string;
  param_type : string
}.

(** One entry of the ABI.  The constructor entry has neither a ["name"]
    nor an ["outputs"] key. *)
Record abi_entry : Type := AbiEntry {
  abi_inputs : list abi_param;
  abi_name : option string;
  abi_outputs : option (list abi_param);
  stateMutability : string;
  abi_type : string
}.

Definition address_param (n : string) : abi_param := AbiParam "address" n "address".
Definition uint256_param (n : string) : abi_param := AbiParam "uint256" n "uint256".

Definition SMART_CONTRACT_ABI : list abi_entry :=
  [ AbiEntry [] None None "nonpayable" "constructor";
    AbiEntry [] (Some "deposit") (Some []) "payable" "function";
    AbiEntry [address_param "tokenAddress"; uint256_param "amount"]
      (Some "depositERC20") (Some []) "nonpayable" "function";
    AbiEntry [] (Some "destroyContract") (Some []) "nonpayable" "function";
    AbiEntry [] (Some "getBalance")
      (Some [uint256_param EmptyString]) "view" "function";
    AbiEntry [address_param "token"] (Some "getERC20Balance")
      (Some [uint256_param EmptyString]) "view" "function";
    AbiEntry [] (Some "getCounter")
      (Some [uint256_param EmptyString]) "view" "function";
    AbiEntry [] (Some "incrementCounter") (Some []) "nonpayable" "function";
    AbiEntry [address_param "to"; uint256_param "amount"]
      (Some "withdraw") (Some []) "nonpayable" "function";
    AbiEntry [address_param "token"; address_param "to"; uint256_param "amount"]
      (Some "withdrawERC20") (Some []) "nonpayable" "function" ].

(** The entries of an ABI that are functions, and the entry of a name. *)
Definition is_function (e : abi_entry) : bool := String.eqb (abi_type e) "function".

Definition abi_functions (abi : list abi_entry) : list abi_entry :=
  filter is_function abi.

Definition has_name (n : string) (e : abi_entry) : bool :=
  match abi_name e with Some m => String.eqb m n | None => false end.

Definition abi_lookup (abi : list abi_entry) (n : string) : option abi_entry :=
  find (has_name n) (abi_functions abi).

(* ================================================================== *)
(** * Values exchanged with the collaborators *)
(* ================================================================== *)

(** An element of the [args] list of a contract call: the program
    passes address strings and integers. *)
Inductive arg : Type :=
| AStr (s : string)
| AInt (n : Z).

(** A value of the transaction-request dict. *)
Inductive txval : Type :=
| TxStr (s : string)
| TxInt (n : Z).

(** A [dict] with string keys, in insertion order. *)
Definition dict : Type := list (string * txval).

(** [d[k] = v] *)
Fixpoint dict_set (k : string) (v : txval) (d : dict) : dict :=
  match d with
  | [] => [(k, v)]
  | (k', v') :: r =>
      if String.eqb k k' then (k, v) :: r else (k', v') :: dict_set k v r
  end.

(** [d.get(k)] *)
Fixpoint dict_get (k : string) (d : dict) : option txval :=
  match d with
  | [] => None
  | (k', v) :: r => if String.eqb k k' then Some v else dict_get k r
  end.

Definition dict_keys (d : dict) : list string := map fst d.

(* ================================================================== *)
(** * The interpreter and the collaborators *)
(* ================================================================== *)

(** What the interpreter supplies and the model leaves open:
    [sys.get_int_max_str_digits()], and the binary floating-point
    numbers with [float(s)] and [str(x)]. *)
Class Interp : Type := {
  int_max_str_digits : Z;
  float : Type;
  float_of_str : string -> exn + float;
  str_of_float : float -> string
}.

(** The collaborators: web3's ABI encoder (building the contract object
    from the address and the ABI, then [encode_abi]) and the wallet
    provider, whose state every call may read and change.  Each call
    returns a value or raises. *)
Class Collaborators : Type := {
  wallet_state : Type;
  read_result : Type;
  encode_abi :
    string -> list abi_entry -> string -> list arg -> exn + string;
  send_transaction :
    dict -> wallet_state -> (exn + string) * wallet_state;
  wait_for_transaction_receipt :
    string -> wallet_state -> (exn + unit) * wallet_state;
  read_contract :
    string -> list abi_entry -> string -> list arg ->
    wallet_state -> (exn + read_result) * wallet_state
}.

Section Program.
Context {I : Interp} {C : Collaborators}.

(** What a tool returns: a text, or the raw result of a read. *)
Inductive retval : Type :=
| Text (s : string)
| Raw (v : read_result).

(** A call made to a collaborator, with its answer: the value returned
    or the exception raised. *)
Inductive event : Type :=
| Ev_encode_abi (function_name : string) (args : list arg) (r : exn + string)
| Ev_send_transaction (tx_params : dict) (r : exn + string)
| Ev_wait_for_transaction_receipt (tx_hash : string) (r : exn + unit)
| Ev_read_contract (function_name : string) (args : list arg)
    (r : exn + read_result).

(** The exception a call raised, if it raised. *)
Definition raised_of {A} (r : exn + A) : option exn :=
  match r with inl e => Some e | inr _ => None end.

Definition event_raised (ev : event) : option exn :=
  match ev with
  | Ev_encode_abi _ _ r => raised_of r
  | Ev_send_transaction _ r => raised_of r
  | Ev_wait_for_transaction_receipt _ r => raised_of r
  | Ev_read_contract _ _ r => raised_of r
  end.

(** The contract function a call names, for the two calls that name one. *)
Definition event_function (ev : event) : option string :=
  match ev with
  | Ev_encode_abi f _ _ | Ev_read_contract f _ _ => Some f
  | _ => None
  end.

(** The outcome of running a piece of the program: what it returned or
    raised, the wallet provider's state afterwards, and the calls it
    made to the collaborators, in order. *)
Record outcome (A : Type) : Type := Outcome {
  result : exn + A;
  final : wallet_state;
  events : list event
}.
Arguments Outcome {A}.
Arguments result {A}.
Arguments final {A}.
Arguments events {A}.

Definition M (A : Type) : Type := wallet_state -> outcome A.

Definition ret {A} (a : A) : M A := fun w => Outcome (inr a) w [].

Definition raise {A} (e : exn) : M A := fun w => Outcome (inl e) w [].

Definition bind {A B} (m : M A) (k : A -> M B) : M B :=
  fun w =>
    let o := m w in
    match result o with
    | inl e => Outcome (inl e) (final o) (events o)
    | inr a =>
        let o' := k a (final o) in
        Outcome (result o') (final o') (events o ++ events o')
    end.

(** A built-in that may raise, run inside [M]. *)
Definition lift {A} (r : exn + A) : M A :=
  match r with inl e => raise e | inr a => ret a end.

(** [try: body / except <classes>: handler]; [handles e] says whether
    the clause catches [e]. *)
Definition try_except {A} (body : M A) (handles : exn -> bool)
  (handler : exn -> M A) : M A :=
  fun w =>
    let o := body w in
    match result o with
    | inr _ => o
    | inl e =>
        if handles e then
          let o' := handler e (final o) in
          Outcome (result o') (final o') (events o ++ events o')
        else o
    end.

(** [except Exception] and a bare [except] catch every exception of the
    model. *)
Definition any_exception (e : exn) : bool := true.

(** One call to a collaborator: answered, and recorded with its answer.
    The encoder is web3's, built from the contract's address and ABI. *)
Definition do_encode_abi (function_name : string) (args : list arg) : M string :=
  fun w =>
    let r := encode_abi SMART_CONTRACT_ADDRESS SMART_CONTRACT_ABI
               function_name args in
    Outcome r w [Ev_encode_abi function_name args r].

Definition do_send_transaction (tx_params : dict) : M string :=
  fun w =>
    let '(r, w') := send_transaction tx_params w in
    Outcome r w' [Ev_send_transaction tx_params r].

Definition do_wait_for_transaction_receipt (tx_hash : string) : M unit :=
  fun w =>
    let '(r, w') := wait_for_transaction_receipt tx_hash w in
    Outcome r w' [Ev_wait_for_transaction_receipt tx_hash r].

Definition do_read_contract (function_name : string) (args : list arg)
  : M read_result :=
  fun w =>
    let '(r, w') :=
      read_contract SMART_CONTRACT_ADDRESS SMART_CONTRACT_ABI
        function_name args w in
    Outcome r w' [Ev_read_contract function_name args r].

End Program.

Arguments Outcome {C A}.
Arguments result {C A}.
Arguments final {C A}.
Arguments events {C A}.

Declare Scope py_scope.
Notation "x <- m ;; k" := (bind m (fun x => k))
  (at level 61, m at next level, right associativity) : py_scope.
Local Open Scope py_scope.

(* ================================================================== *)
(** * Helper methods *)
(* ================================================================== *)

Section Helpers.
Context {I : Interp} {C : Collaborators}.

(** [invoke_contract_function(wallet_provider, function_name, args=None,
    value=Decimal(0))]. *)
Definition invoke_contract_function (function_name : string)
  (args : option (list arg)) (value : Decimal.t) : M retval :=
  try_except
    (let args := match args with None => [] | Some a => a end in
     data <- do_encode_abi function_name args ;;
     let tx_params :=
       [("to", TxStr SMART_CONTRACT_ADDRESS); ("data", TxStr data)] in
     positive <- lift (Decimal.gt value (Decimal.of_int 0)) ;;
     tx_params <-
       (if positive : bool
        then wei <- lift (eth_to_wei value) ;;
             ret (dict_set "value" (TxInt wei) tx_params)
        else ret tx_params) ;;
     tx_hash <- do_send_transaction tx_params ;;
     _ <- do_wait_for_transaction_receipt tx_hash ;;
     ret (Text ("Successfully called " +++ function_name
                +++ ". Transaction hash: " +++ tx_hash)))
    any_exception
    (fun e =>
       ret (Text ("Error calling " +++ function_name +++ ": " +++ exn_str e))).

(** [read_contract_function(wallet_provider, function_name, args=None)]. *)
Definition read_contract_function (function_name : string)
  (args : option (list arg)) : M retval :=
  try_except
    (let args := match args with None => [] | Some a => a end in
     result <- do_read_contract function_name args ;;
     ret (Raw result))
    any_exception
    (fun e => ret (Text ("Error reading from contract: " +++ exn_str e))).

(* ================================================================== *)
(** * Wrappers for contract operations *)
(* ================================================================== *)

(** The default of the [value] parameter, [Decimal(0)]. *)
Definition default_value : Decimal.t := Decimal.of_int 0.

Definition deposit_to_contract (value_in_eth : float) : M retval :=
  value <- lift (Decimal.of_str (str_of_float value_in_eth)) ;;
  invoke_contract_function "deposit" None value.

Definition deposit_erc20_to_contract (token_address : string) (amount : Z)
  : M retval :=
  invoke_contract_function "depositERC20"
    (Some [AStr token_address; AInt amount]) default_value.

Definition increment_counter : M retval :=
  invoke_contract_function "incrementCounter" None default_value.

Definition get_contract_balance : M retval :=
  read_contract_function "getBalance" None.

Definition get_contract_counter : M retval :=
  read_contract_function "getCounter" None.

Definition get_contract_erc20_balance (token_address : string) : M retval :=
  read_contract_function "getERC20Balance" (Some [AStr token_address]).

Definition withdraw_from_contract (to_address : string) (amount_in_wei : Z)
  : M retval :=
  invoke_contract_function "withdraw"
    (Some [AStr to_address; AInt amount_in_wei]) default_value.

Definition withdraw_erc20_from_contract (token_address to_address : string)
  (amount : Z) : M retval :=
  invoke_contract_function "withdrawERC20"
    (Some [AStr token_address; AStr to_address; AInt amount]) default_value.

(* ================================================================== *)
(** * Small parser helpers for tools *)
(* ================================================================== *)

(** Unpacking a list into a fixed number of names raises [ValueError]
    when the lengths differ. *)
Definition unpack_error : exn :=
  Exn ValueError "wrong number of values to unpack".

Definition parse_deposit_erc20_args (input_str : string) : M retval :=
  let parts := PyStr.split (PyStr.strip input_str) in
  if negb (Nat.eqb (List.length parts) 2) then
    ret (Text "Error: Provide 'TOKEN_ADDRESS AMOUNT' separated by a space.")
  else
    match parts with
    | [token_addr; amount_str] =>
        match PyInt.of_str int_max_str_digits amount_str with
        | inl e =>
            if isinstance e ValueError
            then ret (Text "Error: AMOUNT must be an integer.")
            else raise e
        | inr amount_int => deposit_erc20_to_contract token_addr amount_int
        end
    | _ => raise unpack_error
    end.

Definition parse_erc20_balance_args (input_str : string) : M retval :=
  let token_addr := PyStr.strip input_str in
  if PyStr.is_empty token_addr then
    ret (Text "Error: Provide a valid token address.")
  else get_contract_erc20_balance token_addr.

(** The two statements inside the [try] of [parse_withdraw_args]. *)
Definition amount_wei_of (amount_eth_str : string) : exn + Z :=
  match Decimal.of_str amount_eth_str with
  | inl e => inl e
  | inr val => eth_to_wei val
  end.

Definition parse_withdraw_args (input_str : string) : M retval :=
  let parts := PyStr.split (PyStr.strip input_str) in
  if negb (Nat.eqb (List.length parts) 2) then
    ret (Text
      "Error: Provide 'TO_ADDRESS AMOUNT_IN_ETH'. Example: '0xReceiver 0.01'")
  else
    match parts with
    | [to_addr; amount_eth_str] =>
        match amount_wei_of amount_eth_str with
        | inl _ => ret (Text "Error: Amount must be a valid decimal, e.g. 0.01")
        | inr amount_wei => withdraw_from_contract to_addr amount_wei
        end
    | _ => raise unpack_error
    end.

Definition parse_withdraw_erc20_args (input_str : string) : M retval :=
  let parts := PyStr.split (PyStr.strip input_str) in
  if negb (Nat.eqb (List.length parts) 3) then
    ret (Text
      "Error: Provide 'TOKEN_ADDRESS TO_ADDRESS AMOUNT'. Example: '0xSomeToken 0xReceiver 100000'")
  else
    match parts with
    | [token_addr; to_addr; amount_str] =>
        match PyInt.of_str int_max_str_digits amount_str with
        | inl _ => ret (Text "Error: AMOUNT must be an integer.")
        | inr amount_int =>
            withdraw_erc20_from_contract token_addr to_addr amount_int
        end
    | _ => raise unpack_error
    end.

(* ================================================================== *)
(** * The tool catalogue of [initialize_agent] *)
(* ================================================================== *)

Record Tool : Type := MkTool {
  name : string;
  description : string;
  func : string -> M retval
}.

(** The [func] of the [deposit_eth] tool:
    [lambda amount_str: deposit_to_contract(wallet_provider, float(amount_str))]. *)
Definition deposit_eth_func (amount_str : string) : M retval :=
  value_in_eth <- lift (float_of_str amount_str) ;;
  deposit_to_contract value_in_eth.

Definition custom_contract_tools : list Tool :=
  [ MkTool "deposit_eth"
      "Deposit ETH into the custom smart contract. Argument: an ETH float like '0.0001'."
      deposit_eth_func;
    MkTool "deposit_erc20"
      "Deposit ERC20 tokens into the custom contract. Provide 'TOKEN_ADDRESS AMOUNT' (AMOUNT is an integer)."
      parse_deposit_erc20_args;
    MkTool "increment_counter"
      "Increment the counter in the custom smart contract (no arguments)."
      (fun _ => increment_counter);
    MkTool "get_contract_balance"
      "Get the ETH balance (in Wei) of the custom smart contract (no arguments)."
      (fun _ => get_contract_balance);
    MkTool "get_contract_counter"
      "Get the current counter value of the custom smart contract (no arguments)."
      (fun _ => get_contract_counter);
    MkTool "get_contract_erc20_balance"
      "Get the ERC20 token balance of the custom contract. Provide a single 'TOKEN_ADDRESS'."
      parse_erc20_balance_args;
    MkTool "withdraw"
      "Withdraw native ETH from the custom contract. Provide 'TO_ADDRESS AMOUNT_IN_ETH'. Example: '0xReceiver 0.01'"
      parse_withdraw_args;
    MkTool "withdraw_erc20"
      "Withdraw ERC20 tokens from the custom contract. Provide 'TOKEN_ADDRESS TO_ADDRESS AMOUNT'. Example: '0xSomeToken 0xReceiver 1000'"
      parse_withdraw_erc20_args ].

(** The tool of a name, as the agent runtime looks it up. *)
Definition find_tool (n : string) : option Tool :=
  find (fun t => String.eqb (name t) n) custom_contract_tools.

End Helpers.

(* ================================================================== *)
(** * A reference interpreter: CPython with binary64 floats *)
(* ================================================================== *)

Module Binary64.
Import PyStr.

Definition prec : Z := 53.
Definition emax : Z := 1024.

(** The whitespace [float] strips: TAB..CR and SPACE, and NEL and NBSP,
    which are turned into spaces first. *)
Definition is_space (c : ascii) : bool :=
  let n := code c in
  ((9 <=? n) && (n <=? 13)) || (n =? 32) || (n =? 133) || (n =? 160).

Fixpoint lstrip (s : string) : string :=
  match s with
  | EmptyString => EmptyString
  | String c s' => if is_space c then lstrip s' else s
  end.

Fixpoint rstrip (s : string) : string :=
  match s with
  | EmptyString => EmptyString
  | String c s' =>
      let r := rstrip s' in
      if is_space c && is_empty r then EmptyString else String c r
  end.

(** Underscores are allowed between two digits only; [None] when one
    stands elsewhere, else the text without them. *)
Fixpoint drop_underscores (prev : ascii) (s : string) : option string :=
  match s with
  | EmptyString => if Ascii.eqb prev "_" then None else Some EmptyString
  | String c s' =>
      if Ascii.eqb c "_" then
        if is_digit prev then drop_underscores c s' else None
      else if Ascii.eqb prev "_" && negb (is_digit c) then None
      else match drop_underscores c s' with
           | None => None
           | Some r => Some (String c r)
           end
  end.

(** The correctly rounded (to nearest, ties to even) binary64 value of
    [(-1)^sign * c * 10^e]. *)
Definition of_decimal (sign : bool) (c e : Z) : spec_float :=
  match c with
  | Zpos p =>
      if 0 <=? e
      then binary_normalize prec emax
             (if sign then - (c * 10 ^ e) else c * 10 ^ e) 0 false
      else SFdiv prec emax (S754_finite sign p 0)
             (S754_finite false (Z.to_pos (10 ^ (- e))) 0)
  | _ => S754_zero sign
  end.

Definition could_not_convert (s : string) : exn :=
  Exn ValueError ("could not convert string to float: " +++ repr s).

(** [float(s)] *)
Definition of_str (s : string) : exn + spec_float :=
  match drop_underscores " " (rstrip (lstrip s)) with
  | None => inl (could_not_convert s)
  | Some t =>
      let '(sign, body) := Decimal.split_sign t in
      let low := lower_str body in
      if String.eqb low "inf" || String.eqb low "infinity"
      then inr (S754_infinity sign)
      else if String.eqb low "nan" then inr S754_nan
      else
        let '(intpart, r1) := span_digits body in
        let '(fracpart, r2) :=
          match r1 with
          | String "." r => span_digits r
          | _ => (EmptyString, r1)
          end in
        if is_empty intpart && is_empty fracpart
        then inl (could_not_convert s)
        else match Decimal.parse_exponent r2 with
             | None => inl (could_not_convert s)
             | Some e =>
                 inr (of_decimal sign (digits_value (intpart +++ fracpart))
                        (e - Z.of_nat (length fracpart)))
             end
  end.

Definition eqb (x y : spec_float) : bool :=
  match x, y with
  | S754_zero a, S754_zero b => Bool.eqb a b
  | S754_infinity a, S754_infinity b => Bool.eqb a b
  | S754_nan, S754_nan => true
  | S754_finite a m e, S754_finite b n f =>
      Bool.eqb a b && Pos.eqb m n && (e =? f)
  | _, _ => false
  end.

(** The exact decimal [N * 10^E] of [m * 2^e]. *)
Definition exact_decimal (m : positive) (e : Z) : Z * Z :=
  if 0 <=? e then (Zpos m * 2 ^ e, 0) else (Zpos m * 5 ^ (- e), e).

(** Remove the trailing zeros of [d * 10^k], for [0 < d]. *)
Fixpoint strip_zeros (fuel : nat) (d k : Z) : Z * Z :=
  match fuel with
  | O => (d, k)
  | S fuel' =>
      if (d mod 10 =? 0) && (0 <? d) then strip_zeros fuel' (d / 10) (k + 1)
      else (d, k)
  end.

(** The shortest decimal [d * 10^k] that reads back as the positive
    float [x = m * 2^e]; among the shortest, the one nearest to [x].
    [n] is the number of digits tried, [tries] how many more lengths
    may be tried. *)
Fixpoint shortest_from (tries : nat) (n : Z) (x : spec_float) (N E : Z)
  : Z * Z :=
  let L := Decimal.ndigits N in
  if L <=? n then (N, E)
  else
    let j := L - n in
    let lo := N / 10 ^ j in
    let hi := lo + 1 in
    let r := N mod 10 ^ j in
    let half := 5 * 10 ^ (j - 1) in
    let ok_lo := eqb (of_decimal false lo (E + j)) x in
    let ok_hi := eqb (of_decimal false hi (E + j)) x in
    let nearest :=
      if r <? half then lo
      else if half <? r then hi
      else if Z.even lo then lo else hi in
    if ok_lo && ok_hi then (nearest, E + j)
    else if ok_lo then (lo, E + j)
    else if ok_hi then (hi, E + j)
    else match tries with
         | O => (N, E)
         | S tries' => shortest_from tries' (n + 1) x N E
         end.

Definition shortest (m : positive) (e : Z) : Z * Z :=
  let '(N, E) := exact_decimal m e in
  let '(d, k) := shortest_from 17 1 (S754_finite false m e) N E in
  strip_zeros (Z.to_nat (Decimal.ndigits d)) d k.

Fixpoint zeros (n : nat) : string :=
  match n with O => EmptyString | S n' => String "0" (zeros n') end.

(** [repr] of a positive finite float from its digits [ds] and the
    position [decpt] of the decimal point. *)
Definition format_repr (ds : string) (decpt : Z) : string :=
  let n := Z.of_nat (length ds) in
  if (decpt <=? -4) || (16 <? decpt) then
    let exp := decpt - 1 in
    let mant :=
      match ds with
      | String d EmptyString => ds
      | String d rest => String d (String "." rest)
      | EmptyString => ds
      end in
    let ex := str_of_int (Z.abs exp) in
    mant +++ "e" +++ (if exp <? 0 then "-" else "+")
    +++ (if Z.abs exp <? 10 then "0" else EmptyString) +++ ex
  else if decpt <=? 0 then
    "0." +++ zeros (Z.to_nat (- decpt)) +++ ds
  else if n <=? decpt then
    ds +++ zeros (Z.to_nat (decpt - n)) +++ ".0"
  else
    substring 0 (Z.to_nat decpt) ds +++ "."
    +++ substring (Z.to_nat decpt) (length ds) ds.

(** [str(x)], which for a float is [repr(x)]. *)
Definition to_str (x : spec_float) : string :=
  match x with
  | S754_nan => "nan"
  | S754_infinity s => if s then "-inf" else "inf"
  | S754_zero s => if s then "-0.0" else "0.0"
  | S754_finite s m e =>
      let '(d, k) := shortest m e in
      let body := format_repr (str_of_int d) (Decimal.ndigits d + k) in
      if s then String "-" body else body
  end.

End Binary64.

(** CPython with its defaults: integer literals of at most 4300 digits,
    binary64 floats. *)
Definition cpython : Interp := {|
  int_max_str_digits := 4300;
  float := spec_float;
  float_of_str := Binary64.of_str;
  str_of_float := Binary64.to_str
|}.

(* ================================================================== *)
(** * Test doubles for the collaborators *)
(* ================================================================== *)

(** A stand-in for the encoder's output: it keeps the function name and
    the number of arguments apart, which is all the examples need. *)
Definition fake_call_data (function_name : string) (args : list arg) : string :=
  "0x" +++ function_name +++ "/" +++ PyStr.str_of_int (Z.of_nat (List.length args)).

(** A provider that accepts every call.  Its state counts the
    transactions sent; hashes are numbered, reads return the count. *)
Definition accepting_wallet : Collaborators := {|
  wallet_state := Z;
  read_result := Z;
  encode_abi := fun _ _ f args => inr (fake_call_data f args);
  send_transaction := fun _ n => (inr ("0xhash" +++ PyStr.str_of_int n), n + 1);
  wait_for_transaction_receipt := fun _ n => (inr tt, n);
  read_contract := fun _ _ _ _ n => (inr n, n)
|}.

(** An encoder that cannot resolve [incrementCounter], as web3 answers
    for a name its contract object does not have; the provider accepts
    every call. *)
Definition stale_encoder_wallet : Collaborators := {|
  wallet_state := Z;
  read_result := Z;
  encode_abi :=
    fun _ _ f args =>
      if String.eqb f "incrementCounter"
      then inl (Exn CollaboratorError "function not found in the ABI")
      else inr (fake_call_data f args);
  send_transaction := fun _ n => (inr ("0xhash" +++ PyStr.str_of_int n), n + 1);
  wait_for_transaction_receipt := fun _ n => (inr tt, n);
  read_contract := fun _ _ _ _ n => (inr n, n)
|}.

(** A provider whose node refuses every transaction and every read. *)
Definition refusing_wallet : Collaborators := {|
  wallet_state := Z;
  read_result := Z;
  encode_abi := fun _ _ f args => inr (fake_call_data f args);
  send_transaction :=
    fun _ n => (inl (Exn CollaboratorError "insufficient funds"), n);
  wait_for_transaction_receipt := fun _ n => (inr tt, n);
  read_contract :=
    fun _ _ _ _ n => (inl (Exn CollaboratorError "connection refused"), n)
|}.

(* ================================================================== *)
(** * Runtime modes: the choice of a mode *)
(* ================================================================== *)

Module Console.

(** [str.lower] on one code point below 256: the capital letters A..Z
    and the accented capitals 192..222 (the multiplication sign 215
    apart) move up by 32. *)
Definition lower_char (c : ascii) : ascii :=
  let n := PyStr.code c in
  if ((65 <=? n) && (n <=? 90))
     || ((192 <=? n) && (n <=? 222) && negb (n =? 215))
  then PyStr.chr (n + 32) else c.

Fixpoint lower (s : string) : string :=
  match s with
  | EmptyString => EmptyString
  | String c s' => String (lower_char c) (lower s')
  end.

(** What a function reading the terminal ends with: a value, or the
    [EOFError] that [input] raises when no line is left. *)
Inductive ended (A : Type) : Type :=
| Returned (a : A)
| Raised_EOFError.
Arguments Returned {A}.
Arguments Raised_EOFError {A}.

Definition newline : ascii := PyStr.chr 10.

(** The three lines printed before each question, and the question. *)
Definition banner : list string :=
  [ String newline "Available modes:";
    "1. chat    - Interactive chat mode";
    "2. auto    - Autonomous action mode" ].

Definition question : string :=
  String newline "Choose a mode (enter number or name): ".

Definition invalid_choice : string := "Invalid choice. Please try again.".

(** [x in l] for a list of strings. *)
Definition member (x : string) (l : list string) : bool :=
  existsb (String.eqb x) l.

(** [choose_mode()], reading the lines of [stdin] in order.  It gives
    what the function ended with, what it wrote to the terminal, and
    the lines it left unread. *)
Fixpoint choose_mode (stdin : list string)
  : ended string * list string * list string :=
  match stdin with
  | [] => (Raised_EOFError, banner ++ [question], [])
  | line :: rest =>
      let choice := PyStr.strip (lower line) in
      if member choice ["1"; "chat"] then
        (Returned "chat", banner ++ [question], rest)
      else if member choice ["2"; "auto"] then
        (Returned "auto", banner ++ [question], rest)
      else
        let '(r, out, unread) := choose_mode rest in
        (r, banner ++ [question; invalid_choice] ++ out, unread)
  end.

End Console.

(* ================================================================== *)
(** * Vocabulary of the statements *)
(* ================================================================== *)

(** The mode a line of input stands for, if it stands for one. *)
Definition mode_of_line (line : string) : option string :=
  let choice := PyStr.strip (Console.lower line) in
  if Console.member choice ["1"; "chat"] then Some "chat"
  else if Console.member choice ["2"; "auto"] then Some "auto"
  else None.

(** How often a text was written to the terminal. *)
Definition times_written (text : string) (out : list string) : nat :=
  List.length (filter (String.eqb text) out).

(** The function and the arguments of a call that names a function. *)
Definition event_call {C : Collaborators} (ev : event) : option (string * list arg) :=
  match ev with
  | Ev_encode_abi f a _ | Ev_read_contract f a _ => Some (f, a)
  | _ => None
  end.

(** An argument list fits the inputs of an ABI entry: as many
    arguments as inputs, a string for each [address] and an integer
    for each [uint256], in order. *)
Definition arg_fits (a : arg) (p : abi_param) : bool :=
  match a with
  | AStr _ => String.eqb (param_type p) "address"
  | AInt _ => String.eqb (param_type p) "uint256"
  end.

Fixpoint args_fit (args : list arg) (params : list abi_param) : bool :=
  match args, params with
  | [], [] => true
  | a :: args', p :: params' => arg_fits a p && args_fit args' params'
  | _, _ => false
  end.

(** [args] after [if args is None: args = []]. *)
Definition args_or_empty (args : option (list arg)) : list arg :=
  match args with None => [] | Some a => a end.

(** The three texts the helper methods return. *)
Definition read_error_text (e : exn) : string :=
  "Error reading from contract: " +++ exn_str e.

Definition invoke_error_text (function_name : string) (e : exn) : string :=
  "Error calling " +++ function_name +++ ": " +++ exn_str e.

Definition invoke_success_text (function_name tx_hash : string) : string :=
  "Successfully called " +++ function_name
  +++ ". Transaction hash: " +++ tx_hash.

(** The request without a value. *)
Definition plain_request (data : string) : dict :=
  [("to", TxStr SMART_CONTRACT_ADDRESS); ("data", TxStr data)].

(** The request [invoke_contract_function] builds from the call data
    and [value], or the exception building it raises. *)
Definition request_for (value : Decimal.t) (data : string) : exn + dict :=
  match Decimal.gt value (Decimal.of_int 0) with
  | inl e => inl e
  | inr false => inr (plain_request data)
  | inr true =>
      match eth_to_wei value with
      | inl e => inl e
      | inr wei => inr (plain_request data ++ [("value", TxInt wei)])
      end
  end.

(** The contract function each tool of the catalogue is bound to
    through its wrapper, in the catalogue's order. *)
Definition bound_functions : list string :=
  [ "deposit"; "depositERC20"; "incrementCounter"; "getBalance";
    "getCounter"; "getERC20Balance"; "withdraw"; "withdrawERC20" ].

(** A token: at least one character, none of them whitespace. *)
Definition no_space (s : string) : bool :=
  forallb (fun c => negb (PyStr.is_space c)) (list_ascii_of_string s).

Definition is_token (s : string) : bool :=
  negb (PyStr.is_empty s) && no_space s.

(** Tokens written one after the other with a space between them. *)
Fixpoint join (tokens : list string) : string :=
  match tokens with
  | [] => EmptyString
  | [a] => a
  | a :: rest => a +++ String " " (join rest)
  end.

(** The number of whitespace-delimited tokens of an input. *)
Definition token_count (s : string) : nat := List.length (PyStr.split s).

(** The integer part of [c * 10^e], for [0 <= c]. *)
Definition trunc_val (c e : Z) : Z :=
  if 0 <=? e then c * 10 ^ e else c / 10 ^ (- e).

(** The mathematical amount of wei in [(-1)^sign * c * 10^e] ETH,
    truncated toward zero. *)
Definition truncated_wei (sign : bool) (c e : Z) : Z :=
  Decimal.sign_value sign * trunc_val c (e + 18).

(* ================================================================== *)
(** * Properties of the string built-ins *)
(* ================================================================== *)

Section StringFacts.
Import PyStr.

Lemma split_from_lstrip (s : string) :
  split_from EmptyString (lstrip s) = split_from EmptyString s.
Proof.
  induction s as [|c s IH]; simpl; [reflexivity|].
  destruct (is_space c) eqn:Hc; simpl.
  - exact IH.
  - rewrite Hc. reflexivity.
Qed.

Lemma split_from_rstrip (s : string) :
  forall cur, split_from cur (rstrip s) = split_from cur s.
Proof.
  induction s as [|c s IH]; intros cur; simpl; [reflexivity|].
  destruct (is_space c) eqn:Hc; simpl.
  - destruct (rstrip s) as [|d r] eqn:Hr; simpl.
    + rewrite <- (IH EmptyString). simpl. destruct (is_empty cur); reflexivity.
    + rewrite Hc. rewrite <- (IH EmptyString). reflexivity.
  - rewrite Hc. apply IH.
Qed.

(** Stripping first changes nothing for [split()]. *)
Lemma split_strip (s : string) : split (strip s) = split s.
Proof.
  unfold split, strip. rewrite split_from_rstrip. apply split_from_lstrip.
Qed.

Lemma lstrip_all_space (s : string) :
  all_space s = true -> lstrip s = EmptyString.
Proof.
  unfold all_space. induction s as [|c s IH]; simpl; [reflexivity|].
  intros H. apply andb_true_iff in H as [Hc Hs]. rewrite Hc. auto.
Qed.

Lemma lstrip_not_all_space (s : string) :
  all_space s = false ->
  exists c r, lstrip s = String c r /\ is_space c = false.
Proof.
  unfold all_space. induction s as [|c s IH]; simpl; [discriminate|].
  destruct (is_space c) eqn:Hc; simpl; intros H.
  - auto.
  - exists c, s. auto.
Qed.

(** [strip()] leaves nothing exactly when every character is whitespace. *)
Lemma strip_is_empty (s : string) : is_empty (strip s) = all_space s.
Proof.
  unfold strip. destruct (all_space s) eqn:Hs.
  - rewrite (lstrip_all_space _ Hs). reflexivity.
  - destruct (lstrip_not_all_space _ Hs) as (c & r & -> & Hc).
    simpl. rewrite Hc. reflexivity.
Qed.

Lemma split_from_all_space (s : string) :
  all_space s = true -> split_from EmptyString s = [].
Proof.
  unfold all_space. induction s as [|c s IH]; simpl; [reflexivity|].
  intros H. apply andb_true_iff in H as [Hc Hs]. rewrite Hc. auto.
Qed.

End StringFacts.

Section TokenFacts.
Import PyStr.

Lemma split_from_nonempty (s : string) :
  forall cur, is_empty cur = false -> split_from cur s <> [].
Proof.
  induction s as [|c s IH]; intros cur Hcur; simpl.
  - rewrite Hcur. discriminate.
  - destruct (is_space c).
    + rewrite Hcur. discriminate.
    + apply IH. destruct cur; reflexivity.
Qed.

(** An input has no token exactly when it is empty or all whitespace. *)
Lemma no_token_iff_all_space (s : string) :
  List.length (split s) = 0%nat <-> all_space s = true.
Proof.
  unfold split. split.
  - intros H. destruct (all_space s) eqn:Hs; [reflexivity|exfalso].
    revert Hs H. unfold all_space.
    induction s as [|c s IH]; simpl; [discriminate|].
    destruct (is_space c) eqn:Hc; simpl; intros Hs H.
    + auto.
    + apply length_zero_iff_nil in H.
      now apply split_from_nonempty in H.
  - intros H. rewrite split_from_all_space by assumption. reflexivity.
Qed.

End TokenFacts.

(* ================================================================== *)
(** * How the two helper methods run *)
(* ================================================================== *)

Section HelperFacts.
Context {I : Interp} {C : Collaborators}.

(** One read call, whose answer decides everything. *)
Lemma read_contract_function_run (function_name : string)
  (args : option (list arg)) (w : wallet_state) :
  read_contract_function function_name args w =
  let a := args_or_empty args in
  let '(r, w') :=
    read_contract SMART_CONTRACT_ADDRESS SMART_CONTRACT_ABI function_name a w in
  Outcome
    (match r with
     | inl e => inr (Text (read_error_text e))
     | inr v => inr (Raw v)
     end)
    w' [Ev_read_contract function_name a r].
Proof.
  unfold read_contract_function, try_except, bind, do_read_contract, ret,
    args_or_empty, read_error_text.
  destruct args as [a|]; simpl;
    destruct (read_contract _ _ _ _ w) as [[e|v] w']; reflexivity.
Qed.

Lemma read_events (function_name : string) (args : option (list arg))
  (w : wallet_state) :
  exists r,
    events (read_contract_function function_name args w) =
    [Ev_read_contract function_name (args_or_empty args) r].
Proof.
  rewrite read_contract_function_run. cbv zeta.
  destruct (read_contract _ _ function_name _ w) as [r w']. cbn. eauto.
Qed.

End HelperFacts.

Section InvokeFacts.
Context {I : Interp} {C : Collaborators}.

(** The run of [invoke_contract_function], step by step: encoding, the
    request, sending, waiting.  The first step that raises ends the run
    with the error text of its exception. *)
Lemma invoke_contract_function_run (function_name : string)
  (args : option (list arg)) (value : Decimal.t) (w : wallet_state) :
  invoke_contract_function function_name args value w =
  let a := args_or_empty args in
  let failed e := inr (Text (invoke_error_text function_name e)) in
  let r_enc :=
    encode_abi SMART_CONTRACT_ADDRESS SMART_CONTRACT_ABI function_name a in
  let ev_enc := Ev_encode_abi function_name a r_enc in
  match r_enc with
  | inl e => Outcome (failed e) w [ev_enc]
  | inr data =>
      match request_for value data with
      | inl e => Outcome (failed e) w [ev_enc]
      | inr tx =>
          let '(r_send, w1) := send_transaction tx w in
          let ev_send := Ev_send_transaction tx r_send in
          match r_send with
          | inl e => Outcome (failed e) w1 [ev_enc; ev_send]
          | inr tx_hash =>
              let '(r_wait, w2) := wait_for_transaction_receipt tx_hash w1 in
              let ev_wait := Ev_wait_for_transaction_receipt tx_hash r_wait in
              match r_wait with
              | inl e => Outcome (failed e) w2 [ev_enc; ev_send; ev_wait]
              | inr _ =>
                  Outcome
                    (inr (Text (invoke_success_text function_name tx_hash)))
                    w2 [ev_enc; ev_send; ev_wait]
              end
          end
      end
  end.
Proof.
  unfold invoke_contract_function, try_except, bind, do_encode_abi,
    do_send_transaction, do_wait_for_transaction_receipt, lift, ret, raise,
    request_for, invoke_error_text, invoke_success_text, plain_request,
    args_or_empty, any_exception.
  cbn zeta.
  destruct (encode_abi _ _ function_name _) as [e|data]; cbn; [reflexivity|].
  destruct (Decimal.gt value (Decimal.of_int 0)) as [e|[|]]; cbn;
    [reflexivity| |].
  - destruct (eth_to_wei value) as [e|wei]; cbn; [reflexivity|].
    destruct (send_transaction _ w) as [[e|h] w1]; cbn; [reflexivity|].
    destruct (wait_for_transaction_receipt h w1) as [[e|[]] w2]; reflexivity.
  - destruct (send_transaction _ w) as [[e|h] w1]; cbn; [reflexivity|].
    destruct (wait_for_transaction_receipt h w1) as [[e|[]] w2]; reflexivity.
Qed.

End InvokeFacts.

(* ================================================================== *)
(** * The helper methods never let a collaborator fault escape *)
(* ================================================================== *)

(** Split a membership in a short explicit list into its cases. *)
Ltac in_cases H :=
  let rec go :=
    lazymatch type of H with
    | _ \/ _ => destruct H as [H|H]; [inversion H; subst|go]
    | False => contradiction
    | _ => idtac
    end in
  cbn in H; go.

Section Dispatch.
Context {I : Interp} {C : Collaborators}.



End Dispatch.



(* ================================================================== *)
(** * Argument counts *)
(* ================================================================== *)

Section ArgumentCount.
Context {I : Interp} {C : Collaborators}.

(** The parsers count the tokens of the stripped input, which are the
    tokens of the input. *)
Lemma parts_length (input_str : string) :
  List.length (PyStr.split (PyStr.strip input_str)) = token_count input_str.
Proof. unfold token_count. now rewrite split_strip. Qed.

Lemma deposit_erc20_wrong_count (input_str : string) (w : wallet_state) :
  token_count input_str <> 2%nat ->
  parse_deposit_erc20_args input_str w =
  Outcome
    (inr (Text "Error: Provide 'TOKEN_ADDRESS AMOUNT' separated by a space."))
    w [].
Proof.
  intros H. unfold parse_deposit_erc20_args. rewrite parts_length.
  destruct (Nat.eqb_spec (token_count input_str) 2); [contradiction|reflexivity].
Qed.

Lemma withdraw_wrong_count (input_str : string) (w : wallet_state) :
  token_count input_str <> 2%nat ->
  parse_withdraw_args input_str w =
  Outcome
    (inr (Text
       "Error: Provide 'TO_ADDRESS AMOUNT_IN_ETH'. Example: '0xReceiver 0.01'"))
    w [].
Proof.
  intros H. unfold parse_withdraw_args. rewrite parts_length.
  destruct (Nat.eqb_spec (token_count input_str) 2); [contradiction|reflexivity].
Qed.

Lemma withdraw_erc20_wrong_count (input_str : string) (w : wallet_state) :
  token_count input_str <> 3%nat ->
  parse_withdraw_erc20_args input_str w =
  Outcome
    (inr (Text
       "Error: Provide 'TOKEN_ADDRESS TO_ADDRESS AMOUNT'. Example: '0xSomeToken 0xReceiver 100000'"))
    w [].
Proof.
  intros H. unfold parse_withdraw_erc20_args. rewrite parts_length.
  destruct (Nat.eqb_spec (token_count input_str) 3); [contradiction|reflexivity].
Qed.

Lemma erc20_balance_blank (input_str : string) (w : wallet_state) :
  PyStr.all_space input_str = true ->
  parse_erc20_balance_args input_str w =
  Outcome (inr (Text "Error: Provide a valid token address.")) w [].
Proof.
  intros H. unfold parse_erc20_balance_args.
  now rewrite strip_is_empty, H.
Qed.

Lemma erc20_balance_forwarded (input_str : string) (w : wallet_state) :
  PyStr.all_space input_str = false ->
  parse_erc20_balance_args input_str w =
  get_contract_erc20_balance (PyStr.strip input_str) w.
Proof.
  intros H. unfold parse_erc20_balance_args.
  now rewrite strip_is_empty, H.
Qed.

Lemma erc20_balance_events (input_str : string) (w : wallet_state) :
  PyStr.all_space input_str = false ->
  exists r,
    events (parse_erc20_balance_args input_str w) =
    [Ev_read_contract "getERC20Balance" [AStr (PyStr.strip input_str)] r].
Proof.
  intros H. rewrite erc20_balance_forwarded by assumption.
  unfold get_contract_erc20_balance.
  apply (read_events "getERC20Balance" (Some [AStr (PyStr.strip input_str)])).
Qed.

(** C7.  Given fewer than three whitespace-delimited tokens,
    [withdraw_erc20] returns its usage message at once: no call to a
    collaborator is made (no encoding, no transaction, no wait) and the
    wallet provider's state is untouched. *)
Theorem withdraw_erc20_missing_tokens (input_str : string) (w : wallet_state) :
  (token_count input_str < 3)%nat ->
  parse_withdraw_erc20_args input_str w =
  Outcome
    (inr (Text
       "Error: Provide 'TOKEN_ADDRESS TO_ADDRESS AMOUNT'. Example: '0xSomeToken 0xReceiver 100000'"))
    w [].
Proof. intros H. apply withdraw_erc20_wrong_count. lia. Qed.

(** C10.  [get_contract_erc20_balance]: an input that is empty or all
    whitespace gets the text ["Error: Provide a valid token address."]
    and no read call; any other input is forwarded, stripped of its
    surrounding whitespace, as the token address of one read call of
    [getERC20Balance]. *)
Theorem erc20_balance_blank_or_forwarded (input_str : string)
  (w : wallet_state) :
  (PyStr.all_space input_str = true ->
   parse_erc20_balance_args input_str w =
   Outcome (inr (Text "Error: Provide a valid token address.")) w []) /\
  (PyStr.all_space input_str = false ->
   exists r,
     events (parse_erc20_balance_args input_str w) =
     [Ev_read_contract "getERC20Balance" [AStr (PyStr.strip input_str)] r]).
Proof.
  split; intros H.
  - now apply erc20_balance_blank.
  - now apply erc20_balance_events.
Qed.

(** C1, as the code has it.  The three parsers of several tokens
    ([deposit_erc20], [withdraw], [withdraw_erc20]) answer any other
    number of tokens with their usage message, without raising and
    without any call to a collaborator.  [get_contract_erc20_balance]
    rejects only an input without any token and forwards every other
    input whole, whatever its number of tokens.  The tools without
    arguments never look at their input. *)
Theorem argument_count_checks (input_str : string) (w : wallet_state) :
  (token_count input_str <> 2%nat ->
   parse_deposit_erc20_args input_str w =
   Outcome
     (inr (Text "Error: Provide 'TOKEN_ADDRESS AMOUNT' separated by a space."))
     w []) /\
  (token_count input_str <> 2%nat ->
   parse_withdraw_args input_str w =
   Outcome
     (inr (Text
        "Error: Provide 'TO_ADDRESS AMOUNT_IN_ETH'. Example: '0xReceiver 0.01'"))
     w []) /\
  (token_count input_str <> 3%nat ->
   parse_withdraw_erc20_args input_str w =
   Outcome
     (inr (Text
        "Error: Provide 'TOKEN_ADDRESS TO_ADDRESS AMOUNT'. Example: '0xSomeToken 0xReceiver 100000'"))
     w []) /\
  (token_count input_str = 0%nat ->
   parse_erc20_balance_args input_str w =
   Outcome (inr (Text "Error: Provide a valid token address.")) w []) /\
  (token_count input_str <> 0%nat ->
   parse_erc20_balance_args input_str w =
   get_contract_erc20_balance (PyStr.strip input_str) w) /\
  (forall t other,
     In t custom_contract_tools ->
     In (name t)
       ["increment_counter"; "get_contract_balance"; "get_contract_counter"] ->
     func t input_str w = func t other w).
Proof.
  split; [apply deposit_erc20_wrong_count|].
  split; [apply withdraw_wrong_count|].
  split; [apply withdraw_erc20_wrong_count|].
  split; [|split].
  - intros H. apply erc20_balance_blank.
    now apply no_token_iff_all_space.
  - intros H. apply erc20_balance_forwarded.
    destruct (PyStr.all_space input_str) eqn:Hs; [|reflexivity].
    apply no_token_iff_all_space in Hs. contradiction.
  - intros t other Ht Hn. in_cases Ht; try reflexivity;
      cbn in Hn; in_cases Hn.
Qed.

End ArgumentCount.

(** C7 at work: the token address and the receiver, but no amount. *)
Lemma withdraw_erc20_missing_tokens_witness :
  parse_withdraw_erc20_args (I := cpython) (C := accepting_wallet)
    "0xToken 0xReceiver" 0 =
  Outcome (C := accepting_wallet)
    (inr (Text
       "Error: Provide 'TOKEN_ADDRESS TO_ADDRESS AMOUNT'. Example: '0xSomeToken 0xReceiver 100000'"))
    0 [].
Proof.
  apply (withdraw_erc20_missing_tokens (I := cpython) (C := accepting_wallet)).
  vm_compute. lia.
Defined.

(** C10 at work: a blank input, and an address with spaces around it. *)
Lemma erc20_balance_blank_or_forwarded_witness :
  parse_erc20_balance_args (C := accepting_wallet) "   " 7 =
  Outcome (C := accepting_wallet) (inr (Text "Error: Provide a valid token address.")) 7 [] /\
  exists r,
    events (parse_erc20_balance_args (C := accepting_wallet) "  0xToken " 7) =
    [Ev_read_contract "getERC20Balance" [AStr "0xToken"] r].
Proof.
  split.
  - apply (proj1 (erc20_balance_blank_or_forwarded (C := accepting_wallet)
                    "   " 7)).
    reflexivity.
  - apply (proj2 (erc20_balance_blank_or_forwarded (C := accepting_wallet)
                    "  0xToken " 7)).
    reflexivity.
Defined.

(** C1 at work: one token where [deposit_erc20] wants two. *)
Lemma argument_count_checks_witness :
  parse_deposit_erc20_args (I := cpython) (C := accepting_wallet) "0xToken" 0 =
  Outcome (C := accepting_wallet)
    (inr (Text "Error: Provide 'TOKEN_ADDRESS AMOUNT' separated by a space."))
    0 [].
Proof.
  apply (proj1 (argument_count_checks (I := cpython) (C := accepting_wallet)
                  "0xToken" 0)).
  vm_compute. lia.
Defined.

(** C1 does not hold of the tools without arguments: [increment_counter]
    given three tokens sends its transaction all the same. *)
Lemma increment_counter_ignores_tokens :
  token_count "1 2 3" = 3%nat /\
  option_map (fun t : @Tool accepting_wallet => func t "1 2 3" 0)
    (find_tool (I := cpython) "increment_counter") =
  Some (Outcome (C := accepting_wallet)
          (inr (Text
             "Successfully called incrementCounter. Transaction hash: 0xhash0"))
          1
          [Ev_encode_abi "incrementCounter" [] (inr "0xincrementCounter/0");
           Ev_send_transaction (plain_request "0xincrementCounter/0")
             (inr "0xhash0");
           Ev_wait_for_transaction_receipt "0xhash0" (inr tt)]).
Proof. split; reflexivity. Qed.

(* ================================================================== *)
(** * The transaction request *)
(* ================================================================== *)

Lemma gt_zero_finite (s : bool) (c e : Z) :
  Decimal.gt (Decimal.Finite s c e) (Decimal.of_int 0) =
  inr (negb (c =? 0) && negb s).
Proof.
  unfold Decimal.gt, Decimal.of_int, Decimal.cmp_finite. cbn.
  destruct (c =? 0), s; reflexivity.
Qed.

Lemma request_for_default (data : string) :
  request_for default_value data = inr (plain_request data).
Proof. reflexivity. Qed.

Section Request.
Context {I : Interp} {C : Collaborators}.

(** Every transaction sent was built by [request_for] from the call
    data the encoder returned. *)
Lemma sent_request (function_name : string) (args : option (list arg))
  (value : Decimal.t) (w : wallet_state) (tx : dict) (r : exn + string) :
  In (Ev_send_transaction tx r)
    (events (invoke_contract_function function_name args value w)) ->
  exists data,
    encode_abi SMART_CONTRACT_ADDRESS SMART_CONTRACT_ABI function_name
      (args_or_empty args) = inr data /\
    request_for value data = inr tx.
Proof.
  rewrite invoke_contract_function_run. cbv zeta.
  destruct (encode_abi _ _ function_name _) as [e0|data] eqn:Henc.
  { cbn. intros H. in_cases H. }
  destruct (request_for value data) as [e0|tx'] eqn:Hreq.
  { cbn. intros H. in_cases H. }
  destruct (send_transaction tx' w) as [[e0|h0] w1].
  { cbn. intros H. in_cases H. eauto. }
  destruct (wait_for_transaction_receipt h0 w1) as [[e0|[]] w2];
    cbn; intros H; in_cases H; eauto.
Qed.

(** C6, as the code has it.  The request carries a ["value"] field
    exactly when [value > Decimal(0)] holds, whatever the mutability of
    the function called: a transaction sent for a value that is not
    positive has the fields ["to"] and ["data"] only, and one sent for
    a positive value has, after them, ["value"] with the integer
    [int(value * Decimal(10**18))].  A finite value is positive when
    its coefficient is not zero and its sign is plus.  The wrappers of
    the nonpayable functions pass no value, so their requests have the
    fields ["to"] and ["data"] only. *)
Theorem request_value_field (function_name : string)
  (args : option (list arg)) (value : Decimal.t) (w : wallet_state) :
  (forall tx r,
     In (Ev_send_transaction tx r)
       (events (invoke_contract_function function_name args value w)) ->
     exists data,
       encode_abi SMART_CONTRACT_ADDRESS SMART_CONTRACT_ABI function_name
         (args_or_empty args) = inr data /\
       ((Decimal.gt value (Decimal.of_int 0) = inr false /\
         tx = [("to", TxStr SMART_CONTRACT_ADDRESS); ("data", TxStr data)]) \/
        (exists wei,
           Decimal.gt value (Decimal.of_int 0) = inr true /\
           eth_to_wei value = inr wei /\
           tx = [("to", TxStr SMART_CONTRACT_ADDRESS); ("data", TxStr data);
                 ("value", TxInt wei)]))) /\
  (forall s c e,
     Decimal.gt (Decimal.Finite s c e) (Decimal.of_int 0) =
     inr (negb (c =? 0) && negb s)) /\
  (forall token_address to_address amount o tx r,
     In o [ deposit_erc20_to_contract token_address amount w;
            increment_counter w;
            withdraw_from_contract to_address amount w;
            withdraw_erc20_from_contract token_address to_address amount w ] ->
     In (Ev_send_transaction tx r) (events o) ->
     dict_keys tx = ["to"; "data"]).
Proof.
  split; [|split].
  - intros tx r H. apply sent_request in H as (data & Henc & Hreq).
    exists data. split; [exact Henc|].
    unfold request_for in Hreq.
    destruct (Decimal.gt value (Decimal.of_int 0)) as [e0|[|]];
      [discriminate| |].
    + right. destruct (eth_to_wei value) as [e0|wei]; [discriminate|].
      exists wei. inversion Hreq. auto.
    + left. inversion Hreq. auto.
  - apply gt_zero_finite.
  - intros token_address to_address amount o tx r Ho H.
    in_cases Ho; apply sent_request in H as (data & _ & Hreq);
      rewrite request_for_default in Hreq; inversion Hreq; reflexivity.
Qed.

End Request.

(** C6 at work: a deposit of a positive amount on an accepting wallet. *)
Lemma request_value_field_witness :
  exists data,
    encode_abi (Collaborators := accepting_wallet) SMART_CONTRACT_ADDRESS
      SMART_CONTRACT_ABI "deposit" [] = inr data /\
    ((Decimal.gt (Decimal.Finite false 1 (-4)) (Decimal.of_int 0) = inr false /\
      [("to", TxStr SMART_CONTRACT_ADDRESS); ("data", TxStr "0xdeposit/0");
       ("value", TxInt 100000000000000)] =
      [("to", TxStr SMART_CONTRACT_ADDRESS); ("data", TxStr data)]) \/
     (exists wei,
        Decimal.gt (Decimal.Finite false 1 (-4)) (Decimal.of_int 0) = inr true /\
        eth_to_wei (Decimal.Finite false 1 (-4)) = inr wei /\
        [("to", TxStr SMART_CONTRACT_ADDRESS); ("data", TxStr "0xdeposit/0");
         ("value", TxInt 100000000000000)] =
        [("to", TxStr SMART_CONTRACT_ADDRESS); ("data", TxStr data);
         ("value", TxInt wei)])).
Proof.
  apply (proj1 (request_value_field (C := accepting_wallet)
                  "deposit" None (Decimal.Finite false 1 (-4)) 0)
           _ (inr "0xhash0")).
  vm_compute. right. left. reflexivity.
Defined.

(** C6 does not hold of a negative deposit: [deposit_eth] given ["-1"]
    calls the payable [deposit] with the nonzero value [-1.0], and the
    request it sends has no ["value"] field. *)
Lemma negative_deposit_has_no_value_field :
  match float_of_str (Interp := cpython) "-1" with
  | inl e => inl e
  | inr x => Decimal.of_str (str_of_float x)
  end = inr (Decimal.Finite true 10 (-1)) /\
  events (deposit_eth_func (I := cpython) (C := accepting_wallet) "-1" 0) =
  [ Ev_encode_abi "deposit" [] (inr "0xdeposit/0");
    Ev_send_transaction
      [("to", TxStr SMART_CONTRACT_ADDRESS); ("data", TxStr "0xdeposit/0")]
      (inr "0xhash0");
    Ev_wait_for_transaction_receipt "0xhash0" (inr tt) ].
Proof. split; vm_compute; reflexivity. Qed.

(* ================================================================== *)
(** * Tokens that are joined with spaces split back *)
(* ================================================================== *)

Section JoinSplit.
Import PyStr.

Lemma append_empty_r (s : string) : s +++ EmptyString = s.
Proof. induction s as [|c s IH]; simpl; [reflexivity|now rewrite IH]. Qed.

Lemma append_assoc (a b c : string) : (a +++ b) +++ c = a +++ (b +++ c).
Proof. induction a as [|x a IH]; simpl; [reflexivity|now rewrite IH]. Qed.

Lemma is_empty_append (a b : string) :
  is_empty (a +++ b) = is_empty a && is_empty b.
Proof. destruct a; reflexivity. Qed.

(** Reading a whitespace-free text extends the run being read. *)
Lemma split_from_token (a : string) :
  forall cur rest,
    no_space a = true ->
    split_from cur (a +++ rest) = split_from (cur +++ a) rest.
Proof.
  unfold no_space. induction a as [|c a IH]; intros cur rest H; simpl.
  - now rewrite append_empty_r.
  - simpl in H. apply andb_true_iff in H as [Hc Ha].
    apply negb_true_iff in Hc. rewrite Hc.
    rewrite IH by assumption. now rewrite append_assoc.
Qed.

Lemma split_from_space (cur rest : string) :
  is_empty cur = false ->
  split_from cur (String " " rest) = cur :: split_from EmptyString rest.
Proof. intros H. simpl. now rewrite H. Qed.

Lemma split_join (tokens : list string) :
  forallb is_token tokens = true -> split (join tokens) = tokens.
Proof.
  unfold split. induction tokens as [|a rest IH]; [reflexivity|].
  intros H. simpl in H. apply andb_true_iff in H as [Ha Hrest].
  unfold is_token in Ha. apply andb_true_iff in Ha as [Hne Hns].
  apply negb_true_iff in Hne.
  destruct rest as [|b rest].
  - simpl. rewrite <- (append_empty_r a) at 1.
    rewrite split_from_token by assumption. simpl. now rewrite Hne.
  - change (join (a :: b :: rest)) with (a +++ String " " (join (b :: rest))).
    rewrite split_from_token by assumption.
    change (EmptyString +++ a) with a.
    rewrite split_from_space by assumption.
    f_equal. now apply IH.
Qed.

End JoinSplit.

(* ================================================================== *)
(** * Integer amounts *)
(* ================================================================== *)

Section IntFacts.
Import PyStr.

(** [int] raises nothing but [ValueError]. *)
Lemma int_raises_ValueError (limit : Z) (s : string) (e : exn) :
  PyInt.of_str limit s = inl e -> isinstance e ValueError = true.
Proof.
  unfold PyInt.of_str.
  destruct (match s with
            | String "-" r => (true, r)
            | String "+" r => (false, r)
            | _ => (false, s)
            end) as [neg body].
  destruct (PyInt.scan None 0 0 body) as [[v count]|].
  - destruct ((640 <? count) && (0 <? limit) && (limit <? count));
      intros H; inversion H; reflexivity.
  - intros H; inversion H; reflexivity.
Qed.

Lemma scan_digits (ds : string) :
  forall prev acc count,
    Decimal.all_digits ds = true ->
    (ds = EmptyString -> exists p, prev = Some p /\ is_digit p = true) ->
    PyInt.scan prev acc count ds =
    Some (digits_value_from acc ds, count + Z.of_nat (length ds)).
Proof.
  unfold Decimal.all_digits.
  induction ds as [|c ds IH]; intros prev acc count Hd Hp; simpl.
  - destruct (Hp eq_refl) as (p & -> & Hpd).
    assert (Ascii.eqb p "_" = false) as ->.
    { destruct (Ascii.eqb_spec p "_"); [subst; discriminate|reflexivity]. }
    now rewrite Z.add_0_r.
  - simpl in Hd. apply andb_true_iff in Hd as [Hc Hds]. rewrite Hc.
    rewrite IH; [|assumption|intros _; eauto].
    f_equal. f_equal. lia.
Qed.

(** A plain run of digits, with or without a minus sign in front, is an
    integer literal of any length the digit limit allows. *)
Lemma int_of_digits (limit : Z) (ds : string) :
  Decimal.all_digits ds = true -> ds <> EmptyString ->
  (limit = 0 \/ Z.of_nat (length ds) <= limit) ->
  PyInt.of_str limit ds = inr (digits_value ds) /\
  PyInt.of_str limit (String "-" ds) = inr (- digits_value ds).
Proof.
  intros Hd Hne Hlim.
  assert (Hscan : PyInt.scan None 0 0 ds =
                  Some (digits_value ds, Z.of_nat (length ds))).
  { rewrite scan_digits; [reflexivity|assumption|contradiction]. }
  assert (Hok : (640 <? Z.of_nat (length ds)) && (0 <? limit)
                && (limit <? Z.of_nat (length ds)) = false).
  { destruct Hlim as [->|Hle].
    - now rewrite andb_false_r.
    - apply andb_false_iff. right. lia. }
  split.
  - unfold PyInt.of_str.
    destruct ds as [|c ds']; [contradiction|].
    assert (Hc : is_digit c = true).
    { unfold Decimal.all_digits in Hd. simpl in Hd.
      now apply andb_true_iff in Hd as [Hc _]. }
    assert ((match String c ds' with
             | String "-" r => (true, r)
             | String "+" r => (false, r)
             | _ => (false, String c ds')
             end) = (false, String c ds')) as ->.
    { destruct c as [[] [] [] [] [] [] [] []]; try reflexivity;
        discriminate Hc. }
    rewrite Hscan, Hok. reflexivity.
  - unfold PyInt.of_str. rewrite Hscan, Hok. reflexivity.
Qed.

End IntFacts.

Section Amounts.
Context {I : Interp} {C : Collaborators}.

Lemma deposit_erc20_amount (input_str token_addr amount_str : string)
  (w : wallet_state) :
  PyStr.split input_str = [token_addr; amount_str] ->
  (forall n, PyInt.of_str int_max_str_digits amount_str = inr n ->
     parse_deposit_erc20_args input_str w =
     deposit_erc20_to_contract token_addr n w) /\
  (forall e, PyInt.of_str int_max_str_digits amount_str = inl e ->
     parse_deposit_erc20_args input_str w =
     Outcome (inr (Text "Error: AMOUNT must be an integer.")) w []).
Proof.
  intros Hs. unfold parse_deposit_erc20_args. rewrite split_strip, Hs. cbn.
  split.
  - intros n ->. reflexivity.
  - intros e He. rewrite He.
    now rewrite (int_raises_ValueError _ _ _ He).
Qed.

Lemma withdraw_erc20_amount
  (input_str token_addr to_addr amount_str : string) (w : wallet_state) :
  PyStr.split input_str = [token_addr; to_addr; amount_str] ->
  (forall n, PyInt.of_str int_max_str_digits amount_str = inr n ->
     parse_withdraw_erc20_args input_str w =
     withdraw_erc20_from_contract token_addr to_addr n w) /\
  (forall e, PyInt.of_str int_max_str_digits amount_str = inl e ->
     parse_withdraw_erc20_args input_str w =
     Outcome (inr (Text "Error: AMOUNT must be an integer.")) w []).
Proof.
  intros Hs. unfold parse_withdraw_erc20_args. rewrite split_strip, Hs. cbn.
  split.
  - intros n ->. reflexivity.
  - intros e ->. reflexivity.
Qed.

(** C4, as the code has it.  The integer amount of [deposit_erc20] and
    [withdraw_erc20] is whatever [int] reads from the token, of either
    sign: the parser hands it to the wrapper unchanged, and a token
    [int] rejects gets the text ["Error: AMOUNT must be an integer."]
    with no call to a collaborator.  [int] reads every run of digits,
    as long as the interpreter's digit limit allows, and the same run
    after a minus sign as the negative number. *)
Theorem integer_amounts (input_str token_addr to_addr amount_str : string)
  (w : wallet_state) :
  (PyStr.split input_str = [token_addr; amount_str] ->
   (forall n, PyInt.of_str int_max_str_digits amount_str = inr n ->
      parse_deposit_erc20_args input_str w =
      deposit_erc20_to_contract token_addr n w) /\
   (forall e, PyInt.of_str int_max_str_digits amount_str = inl e ->
      parse_deposit_erc20_args input_str w =
      Outcome (inr (Text "Error: AMOUNT must be an integer.")) w [])) /\
  (PyStr.split input_str = [token_addr; to_addr; amount_str] ->
   (forall n, PyInt.of_str int_max_str_digits amount_str = inr n ->
      parse_withdraw_erc20_args input_str w =
      withdraw_erc20_from_contract token_addr to_addr n w) /\
   (forall e, PyInt.of_str int_max_str_digits amount_str = inl e ->
      parse_withdraw_erc20_args input_str w =
      Outcome (inr (Text "Error: AMOUNT must be an integer.")) w [])) /\
  (forall ds,
     Decimal.all_digits ds = true -> ds <> EmptyString ->
     int_max_str_digits = 0 \/ Z.of_nat (length ds) <= int_max_str_digits ->
     PyInt.of_str int_max_str_digits ds = inr (PyStr.digits_value ds) /\
     PyInt.of_str int_max_str_digits (String "-" ds) =
     inr (- PyStr.digits_value ds)).
Proof.
  split; [|split].
  - apply deposit_erc20_amount.
  - apply withdraw_erc20_amount.
  - intros ds. apply int_of_digits.
Qed.

Lemma invoke_first_event (function_name : string) (args : option (list arg))
  (value : Decimal.t) (w : wallet_state) :
  exists r rest,
    events (invoke_contract_function function_name args value w) =
    Ev_encode_abi function_name (args_or_empty args) r :: rest.
Proof.
  rewrite invoke_contract_function_run. cbv zeta.
  destruct (encode_abi _ _ function_name _) as [e0|data]; [cbn; eauto|].
  destruct (request_for value data) as [e0|tx]; [cbn; eauto|].
  destruct (send_transaction tx w) as [[e0|h0] w1]; [cbn; eauto|].
  destruct (wait_for_transaction_receipt h0 w1) as [[e0|[]] w2]; cbn; eauto.
Qed.

Lemma strip_token (a : string) : is_token a = true -> PyStr.strip a = a.
Proof.
  unfold is_token, no_space. intros H. apply andb_true_iff in H as [Hne Hns].
  unfold PyStr.strip.
  assert (Hl : PyStr.lstrip a = a).
  { destruct a as [|c a]; [reflexivity|]. simpl in *.
    apply andb_true_iff in Hns as [Hc _]. apply negb_true_iff in Hc.
    now rewrite Hc. }
  rewrite Hl. clear Hl Hne. revert Hns.
  induction a as [|c a IH]; [reflexivity|]. simpl. intros Hns.
  apply andb_true_iff in Hns as [Hc Ha]. apply negb_true_iff in Hc.
  rewrite Hc. simpl. now rewrite IH.
Qed.

Lemma token_not_all_space (a : string) :
  is_token a = true -> PyStr.all_space a = false.
Proof.
  unfold is_token, no_space, PyStr.all_space.
  destruct a as [|c a]; [discriminate|]. simpl. intros H.
  apply andb_true_iff in H as [Hc _].
  apply negb_true_iff in Hc. now rewrite Hc.
Qed.

(** C8.  An address token reaches the collaborator exactly as it was
    written, whatever its form: when the amount next to it is accepted,
    the first call of the tool is the encoding (for
    [get_contract_erc20_balance], the read) with the address token as
    its argument.  No parser looks inside an address. *)
Theorem addresses_pass_through (addr other amount_str : string)
  (w : wallet_state) :
  is_token addr = true -> is_token other = true ->
  is_token amount_str = true ->
  (forall n, PyInt.of_str int_max_str_digits amount_str = inr n ->
     exists r rest,
       events (parse_deposit_erc20_args (join [addr; amount_str]) w) =
       Ev_encode_abi "depositERC20" [AStr addr; AInt n] r :: rest) /\
  (forall wei, amount_wei_of amount_str = inr wei ->
     exists r rest,
       events (parse_withdraw_args (join [addr; amount_str]) w) =
       Ev_encode_abi "withdraw" [AStr addr; AInt wei] r :: rest) /\
  (forall n, PyInt.of_str int_max_str_digits amount_str = inr n ->
     exists r rest,
       events (parse_withdraw_erc20_args (join [other; addr; amount_str]) w) =
       Ev_encode_abi "withdrawERC20" [AStr other; AStr addr; AInt n] r :: rest) /\
  (exists r,
     events (parse_erc20_balance_args addr w) =
     [Ev_read_contract "getERC20Balance" [AStr addr] r]).
Proof.
  intros Ha Ho Hm.
  assert (H2 : PyStr.split (join [addr; amount_str]) = [addr; amount_str]).
  { apply split_join. simpl. now rewrite Ha, Hm. }
  assert (H3 : PyStr.split (join [other; addr; amount_str])
               = [other; addr; amount_str]).
  { apply split_join. simpl. now rewrite Ha, Ho, Hm. }
  split; [|split; [|split]].
  - intros n Hn.
    destruct (deposit_erc20_amount (join [addr; amount_str]) addr amount_str w)
      as (Hok & _); [exact H2|].
    rewrite (Hok n Hn). apply invoke_first_event.
  - intros wei Hwei. unfold parse_withdraw_args.
    rewrite split_strip, H2. cbn. rewrite Hwei. apply invoke_first_event.
  - intros n Hn.
    destruct (withdraw_erc20_amount (join [other; addr; amount_str])
                other addr amount_str w) as (Hok & _); [exact H3|].
    rewrite (Hok n Hn). apply invoke_first_event.
  - destruct (erc20_balance_events addr w (token_not_all_space _ Ha))
      as (r & Hr).
    rewrite (strip_token _ Ha) in Hr. eauto.
Qed.

End Amounts.

(** C4 at work: two tokens, the second one an integer. *)
Lemma integer_amounts_witness :
  parse_deposit_erc20_args (I := cpython) (C := accepting_wallet)
    "0xSomeToken 5000" 0 =
  deposit_erc20_to_contract (C := accepting_wallet) "0xSomeToken" 5000 0.
Proof.
  apply (proj1 (proj1 (integer_amounts (I := cpython) (C := accepting_wallet)
                         "0xSomeToken 5000" "0xSomeToken" "" "5000" 0)
                  eq_refl)).
  reflexivity.
Defined.

(** C4 does not hold of negative literals: [deposit_erc20] reads the
    amount [-5] and goes on to the contract call with it. *)
Lemma negative_amount_is_accepted :
  PyInt.of_str (int_max_str_digits (Interp := cpython)) "-5" = inr (-5) /\
  events (parse_deposit_erc20_args (I := cpython) (C := accepting_wallet)
            "0xSomeToken -5" 0) =
  [ Ev_encode_abi "depositERC20" [AStr "0xSomeToken"; AInt (-5)]
      (inr "0xdepositERC20/2");
    Ev_send_transaction (plain_request "0xdepositERC20/2") (inr "0xhash0");
    Ev_wait_for_transaction_receipt "0xhash0" (inr tt) ].
Proof. split; vm_compute; reflexivity. Qed.

(** C8 at work: a text that is no address at all. *)
Lemma addresses_pass_through_witness :
  exists r rest,
    events (parse_deposit_erc20_args (I := cpython) (C := accepting_wallet)
              "not-an-address 5" 0) =
    Ev_encode_abi "depositERC20" [AStr "not-an-address"; AInt 5] r :: rest.
Proof.
  apply (proj1 (addresses_pass_through (I := cpython) (C := accepting_wallet)
                  "not-an-address" "0xReceiver" "5" 0
                  eq_refl eq_refl eq_refl)).
  reflexivity.
Defined.

(* ================================================================== *)
(** * The catalogue and the ABI *)
(* ================================================================== *)

Section Catalogue.
Context {I : Interp} {C : Collaborators}.

Lemma invoke_names (function_name : string) (args : option (list arg))
  (value : Decimal.t) (w : wallet_state) (ev : event) (g : string) :
  In ev (events (invoke_contract_function function_name args value w)) ->
  event_function ev = Some g -> g = function_name.
Proof.
  rewrite invoke_contract_function_run. cbv zeta.
  destruct (encode_abi _ _ function_name _) as [e0|data].
  { cbn. intros H Hg. in_cases H. cbn in Hg. congruence. }
  destruct (request_for value data) as [e0|tx].
  { cbn. intros H Hg. in_cases H. cbn in Hg. congruence. }
  destruct (send_transaction tx w) as [[e0|h0] w1].
  { cbn. intros H Hg. in_cases H; cbn in Hg; congruence. }
  destruct (wait_for_transaction_receipt h0 w1) as [[e0|[]] w2];
    cbn; intros H Hg; in_cases H; cbn in Hg; congruence.
Qed.

Lemma read_names (function_name : string) (args : option (list arg))
  (w : wallet_state) (ev : event) (g : string) :
  In ev (events (read_contract_function function_name args w)) ->
  event_function ev = Some g -> g = function_name.
Proof.
  destruct (read_events function_name args w) as (r & ->).
  intros H Hg. in_cases H. cbn in Hg. congruence.
Qed.

Lemma deposit_eth_names (s : string) (w : wallet_state) (ev : event)
  (g : string) :
  In ev (events (deposit_eth_func s w)) ->
  event_function ev = Some g -> g = "deposit".
Proof.
  unfold deposit_eth_func, deposit_to_contract, bind, lift, raise, ret.
  destruct (float_of_str s) as [e|x]; cbn; [contradiction|].
  destruct (Decimal.of_str (str_of_float x)) as [e|d]; cbn; [contradiction|].
  apply invoke_names.
Qed.

Lemma deposit_erc20_names (s : string) (w : wallet_state) (ev : event)
  (g : string) :
  In ev (events (parse_deposit_erc20_args s w)) ->
  event_function ev = Some g -> g = "depositERC20".
Proof.
  unfold parse_deposit_erc20_args.
  destruct (PyStr.split (PyStr.strip s)) as [|a [|b [|c l]]]; cbn;
    try contradiction.
  destruct (PyInt.of_str int_max_str_digits b) as [e|n].
  - destruct (isinstance e ValueError); cbn; contradiction.
  - apply invoke_names.
Qed.

Lemma withdraw_names (s : string) (w : wallet_state) (ev : event)
  (g : string) :
  In ev (events (parse_withdraw_args s w)) ->
  event_function ev = Some g -> g = "withdraw".
Proof.
  unfold parse_withdraw_args.
  destruct (PyStr.split (PyStr.strip s)) as [|a [|b [|c l]]]; cbn;
    try contradiction.
  destruct (amount_wei_of b) as [e|n]; [cbn; contradiction|].
  apply invoke_names.
Qed.

Lemma withdraw_erc20_names (s : string) (w : wallet_state) (ev : event)
  (g : string) :
  In ev (events (parse_withdraw_erc20_args s w)) ->
  event_function ev = Some g -> g = "withdrawERC20".
Proof.
  unfold parse_withdraw_erc20_args.
  destruct (PyStr.split (PyStr.strip s)) as [|a [|b [|c [|d l]]]]; cbn;
    try contradiction.
  destruct (PyInt.of_str int_max_str_digits c) as [e|n]; [cbn; contradiction|].
  apply invoke_names.
Qed.

Lemma erc20_balance_names (s : string) (w : wallet_state) (ev : event)
  (g : string) :
  In ev (events (parse_erc20_balance_args s w)) ->
  event_function ev = Some g -> g = "getERC20Balance".
Proof.
  unfold parse_erc20_balance_args.
  destruct (PyStr.is_empty (PyStr.strip s)); [cbn; contradiction|].
  apply read_names.
Qed.

Lemma invoke_raised (function_name : string) (args : option (list arg))
  (value : Decimal.t) (w : wallet_state) (ev : event) (e : exn) :
  In ev (events (invoke_contract_function function_name args value w)) ->
  event_raised ev = Some e ->
  result (invoke_contract_function function_name args value w) =
  inr (Text (invoke_error_text function_name e)).
Proof.
  rewrite invoke_contract_function_run. cbv zeta.
  destruct (encode_abi _ _ function_name _) as [e0|data].
  { cbn. intros H He. in_cases H. cbn in He. congruence. }
  destruct (request_for value data) as [e0|tx].
  { cbn. intros H He. in_cases H. cbn in He. congruence. }
  destruct (send_transaction tx w) as [[e0|h0] w1].
  { cbn. intros H He. in_cases H; cbn in He; congruence. }
  destruct (wait_for_transaction_receipt h0 w1) as [[e0|[]] w2];
    cbn; intros H He; in_cases H; cbn in He; congruence.
Qed.

Lemma read_raised (function_name : string) (args : option (list arg))
  (w : wallet_state) (ev : event) (e : exn) :
  In ev (events (read_contract_function function_name args w)) ->
  event_raised ev = Some e ->
  result (read_contract_function function_name args w) =
  inr (Text (read_error_text e)).
Proof.
  rewrite read_contract_function_run. cbv zeta.
  destruct (read_contract _ _ function_name _ w) as [[e0|v0] w'];
    cbn; intros H He; in_cases H; cbn in He; congruence.
Qed.

Lemma deposit_eth_raised (s : string) (w : wallet_state) (ev : event)
  (e : exn) :
  In ev (events (deposit_eth_func s w)) -> event_raised ev = Some e ->
  result (deposit_eth_func s w) = inr (Text (invoke_error_text "deposit" e)).
Proof.
  unfold deposit_eth_func, deposit_to_contract, bind, lift, raise, ret.
  destruct (float_of_str s) as [e0|x]; cbn; [contradiction|].
  destruct (Decimal.of_str (str_of_float x)) as [e0|d]; cbn; [contradiction|].
  intros Hin He. rewrite (invoke_raised _ _ _ _ _ _ Hin He). reflexivity.
Qed.

Lemma deposit_erc20_raised (s : string) (w : wallet_state) (ev : event)
  (e : exn) :
  In ev (events (parse_deposit_erc20_args s w)) ->
  event_raised ev = Some e ->
  result (parse_deposit_erc20_args s w) =
  inr (Text (invoke_error_text "depositERC20" e)).
Proof.
  unfold parse_deposit_erc20_args.
  destruct (PyStr.split (PyStr.strip s)) as [|a [|b [|c l]]]; cbn;
    try contradiction.
  destruct (PyInt.of_str int_max_str_digits b) as [e0|n].
  - destruct (isinstance e0 ValueError); cbn; contradiction.
  - apply invoke_raised.
Qed.

Lemma withdraw_raised (s : string) (w : wallet_state) (ev : event)
  (e : exn) :
  In ev (events (parse_withdraw_args s w)) ->
  event_raised ev = Some e ->
  result (parse_withdraw_args s w) =
  inr (Text (invoke_error_text "withdraw" e)).
Proof.
  unfold parse_withdraw_args.
  destruct (PyStr.split (PyStr.strip s)) as [|a [|b [|c l]]]; cbn;
    try contradiction.
  destruct (amount_wei_of b) as [e0|n]; [cbn; contradiction|].
  apply invoke_raised.
Qed.

Lemma withdraw_erc20_raised (s : string) (w : wallet_state) (ev : event)
  (e : exn) :
  In ev (events (parse_withdraw_erc20_args s w)) ->
  event_raised ev = Some e ->
  result (parse_withdraw_erc20_args s w) =
  inr (Text (invoke_error_text "withdrawERC20" e)).
Proof.
  unfold parse_withdraw_erc20_args.
  destruct (PyStr.split (PyStr.strip s)) as [|a [|b [|c [|d l]]]]; cbn;
    try contradiction.
  destruct (PyInt.of_str int_max_str_digits c) as [e0|n];
    [cbn; contradiction|].
  apply invoke_raised.
Qed.

Lemma erc20_balance_raised (s : string) (w : wallet_state) (ev : event)
  (e : exn) :
  In ev (events (parse_erc20_balance_args s w)) ->
  event_raised ev = Some e ->
  result (parse_erc20_balance_args s w) = inr (Text (read_error_text e)).
Proof.
  unfold parse_erc20_balance_args.
  destruct (PyStr.is_empty (PyStr.strip s)); [cbn; contradiction|].
  apply read_raised.
Qed.

(** C5, as the code has it.  Each of the eight tools is bound to one
    function of the contract's ABI: the name it is bound to is the name
    of a function entry of [SMART_CONTRACT_ABI], and every call of the
    tool that names a contract function names that one.  Nothing
    checks this when the catalogue is built, which is a plain list: a
    name meets the ABI only when the tool is used, in the encoder or in
    the read call, and if that call raises (as it does for a name that
    does not resolve) the tool returns the error text of the helper
    method there and then. *)
Theorem tools_bound_to_abi_functions (t : Tool) (f : string) :
  In (t, f) (combine custom_contract_tools bound_functions) ->
  List.length custom_contract_tools = List.length bound_functions /\
  abi_lookup SMART_CONTRACT_ABI f <> None /\
  (forall s w ev g,
     In ev (events (func t s w)) -> event_function ev = Some g -> g = f) /\
  (forall s w ev e,
     In ev (events (func t s w)) -> event_raised ev = Some e ->
     result (func t s w) = inr (Text (invoke_error_text f e)) \/
     result (func t s w) = inr (Text (read_error_text e))).
Proof.
  intros H. split; [reflexivity|].
  unfold custom_contract_tools, bound_functions in H.
  in_cases H; (split; [vm_compute; discriminate|]); cbn [func];
    (split; [intros s w ev g|intros s w ev e Hin He]).
  - apply deposit_eth_names.
  - left. now apply deposit_eth_raised with ev.
  - apply deposit_erc20_names.
  - left. now apply deposit_erc20_raised with ev.
  - apply invoke_names.
  - left. now apply invoke_raised with ev.
  - apply read_names.
  - right. now apply read_raised with ev.
  - apply read_names.
  - right. now apply read_raised with ev.
  - apply erc20_balance_names.
  - right. now apply erc20_balance_raised with ev.
  - apply withdraw_names.
  - left. now apply withdraw_raised with ev.
  - apply withdraw_erc20_names.
  - left. now apply withdraw_erc20_raised with ev.
Qed.

End Catalogue.

(** C5 at work: the encoder does not resolve the name of
    [increment_counter]; the tool answers with the error text. *)
Lemma tools_bound_to_abi_functions_witness :
  result (increment_counter (C := stale_encoder_wallet) 0) =
  inr (Text
         (invoke_error_text "incrementCounter"
            (Exn CollaboratorError "function not found in the ABI"))) \/
  result (increment_counter (C := stale_encoder_wallet) 0) =
  inr (Text
         (read_error_text
            (Exn CollaboratorError "function not found in the ABI"))).
Proof.
  apply (proj2 (proj2 (proj2
           (tools_bound_to_abi_functions (I := cpython)
              (C := stale_encoder_wallet)
              (MkTool "increment_counter"
                 "Increment the counter in the custom smart contract (no arguments)."
                 (fun _ => increment_counter))
              "incrementCounter"
              ltac:(cbn; right; right; left; reflexivity))))
           EmptyString 0
           (Ev_encode_abi "incrementCounter" []
              (inl (Exn CollaboratorError "function not found in the ABI")))).
  - cbn. left. reflexivity.
  - reflexivity.
Defined.

(** C5 does not hold of the moment of failure: with an encoder that
    cannot resolve [incrementCounter], the catalogue is built all the
    same, with its eight tools and [increment_counter] among them, and
    the mismatch shows only when the tool is first used, as the text of
    an error. *)
Lemma unresolved_name_fails_at_first_use :
  List.length (custom_contract_tools (I := cpython)
                 (C := stale_encoder_wallet)) = 8%nat /\
  option_map name
    (find_tool (I := cpython) (C := stale_encoder_wallet) "increment_counter")
  = Some "increment_counter" /\
  option_map (fun t : @Tool stale_encoder_wallet => func t EmptyString 0)
    (find_tool (I := cpython) "increment_counter") =
  Some (Outcome (C := stale_encoder_wallet)
          (inr (Text
             "Error calling incrementCounter: function not found in the ABI"))
          0
          [Ev_encode_abi "incrementCounter" []
             (inl (Exn CollaboratorError "function not found in the ABI"))]).
Proof. repeat split; reflexivity. Qed.

(* ================================================================== *)
(** * Decimal arithmetic of the conversion to wei *)
(* ================================================================== *)

Section DecimalFacts.
Import Decimal.

Lemma pow10_pos (k : Z) : 0 <= k -> 0 < 10 ^ k.
Proof. intros. apply Z.pow_pos_nonneg; lia. Qed.

Lemma ndigits_fuel_spec (fuel : nat) :
  forall c, 0 < c -> c < 2 ^ (Z.of_nat fuel + 1) ->
  1 <= ndigits_fuel fuel c /\
  10 ^ (ndigits_fuel fuel c - 1) <= c < 10 ^ ndigits_fuel fuel c.
Proof.
  induction fuel as [|fuel IH]; intros c Hc Hb.
  - change (2 ^ (Z.of_nat 0 + 1)) with 2 in Hb.
    assert (c = 1) as -> by lia. cbn. lia.
  - cbn [ndigits_fuel]. destruct (Z.ltb_spec c 10) as [Hlt|Hge].
    + cbn. lia.
    + assert (Hq : 0 < c / 10) by (apply Z.div_str_pos; lia).
      assert (Hqb : c / 10 < 2 ^ (Z.of_nat fuel + 1)).
      { apply Z.div_lt_upper_bound; [lia|].
        replace (Z.of_nat (S fuel) + 1) with (Z.succ (Z.of_nat fuel + 1)) in Hb
          by lia.
        rewrite Z.pow_succ_r in Hb by lia. lia. }
      destruct (IH (c / 10) Hq Hqb) as (H1 & Hlo & Hhi).
      set (n := ndigits_fuel fuel (c / 10)) in *.
      split; [lia|].
      replace (1 + n - 1) with (Z.succ (n - 1)) by lia.
      replace (1 + n) with (Z.succ n) by lia.
      rewrite !Z.pow_succ_r by lia.
      pose proof (Z.div_mod c 10 ltac:(lia)) as Hdm.
      pose proof (Z.mod_pos_bound c 10 ltac:(lia)) as Hm.
      lia.
Qed.

(** [ndigits c] is the number of decimal digits of a positive [c]. *)
Lemma ndigits_spec (c : Z) :
  0 < c -> 1 <= ndigits c /\ 10 ^ (ndigits c - 1) <= c < 10 ^ ndigits c.
Proof.
  intros Hc. unfold ndigits. apply ndigits_fuel_spec; [assumption|].
  rewrite Z2Nat.id by (apply Z.log2_nonneg).
  pose proof (Z.log2_spec c Hc). replace (Z.log2 c + 1) with (Z.succ (Z.log2 c)); lia.
Qed.

Lemma ndigits_unique (c n : Z) :
  0 < c -> 10 ^ (n - 1) <= c < 10 ^ n -> ndigits c = n.
Proof.
  intros Hc [Hlo Hhi].
  destruct (ndigits_spec c Hc) as (H1 & Hlo' & Hhi').
  assert (Hn : 1 <= n).
  { destruct (Z.le_gt_cases 1 n); [assumption|].
    assert (10 ^ n <= 10 ^ 0) by (apply Z.pow_le_mono_r; lia).
    cbn in *. lia. }
  assert (n - 1 < ndigits c).
  { apply (Z.pow_lt_mono_r_iff 10); lia. }
  assert (ndigits c - 1 < n).
  { apply (Z.pow_lt_mono_r_iff 10); lia. }
  lia.
Qed.

Lemma ndigits_mul_pow10 (c k : Z) :
  0 < c -> 0 <= k -> ndigits (c * 10 ^ k) = ndigits c + k.
Proof.
  intros Hc Hk. destruct (ndigits_spec c Hc) as (H1 & Hlo & Hhi).
  pose proof (pow10_pos k Hk).
  apply ndigits_unique; [nia|].
  replace (ndigits c + k - 1) with ((ndigits c - 1) + k) by lia.
  rewrite !Z.pow_add_r by lia. nia.
Qed.

(** At most [n] digits means below [10^n]. *)
Lemma ndigits_le (c n : Z) : 0 < c -> c < 10 ^ n -> ndigits c <= n.
Proof.
  intros Hc Hn. destruct (ndigits_spec c Hc) as (H1 & Hlo & _).
  destruct (Z.le_gt_cases (ndigits c) n) as [|Hgt]; [assumption|].
  assert (10 ^ n <= 10 ^ (ndigits c - 1)) by (apply Z.pow_le_mono_r; lia).
  lia.
Qed.

Lemma to_int_finite (s : bool) (c e : Z) :
  0 <= c -> to_int (Finite s c e) = inr (sign_value s * trunc_val c e).
Proof.
  intros Hc. unfold to_int, trunc_val.
  destruct (Z.leb_spec 0 e); [f_equal; lia|].
  destruct (Z.leb_spec (ndigits c) (- e)) as [Hle|]; [|reflexivity].
  f_equal. f_equal.
  destruct (Z.eq_dec c 0) as [->|Hnz]; [now rewrite Zdiv_0_l|].
  destruct (ndigits_spec c ltac:(lia)) as (_ & _ & Hhi).
  assert (10 ^ ndigits c <= 10 ^ (- e)) by (apply Z.pow_le_mono_r; lia).
  symmetry. apply Z.div_small. lia.
Qed.

(** Moving a factor [10^k] between coefficient and exponent. *)
Lemma trunc_val_shift (c e k : Z) :
  0 <= c -> 0 <= k -> trunc_val (c * 10 ^ k) e = trunc_val c (e + k).
Proof.
  intros Hc Hk. unfold trunc_val.
  destruct (Z.leb_spec 0 e) as [He|He].
  - destruct (Z.leb_spec 0 (e + k)); [|lia].
    rewrite Z.pow_add_r by lia. lia.
  - pose proof (pow10_pos k Hk).
    destruct (Z.leb_spec 0 (e + k)) as [Hek|Hek].
    + replace (10 ^ k) with (10 ^ (e + k) * 10 ^ (- e)).
      * rewrite Z.mul_assoc. apply Z.div_mul.
        pose proof (pow10_pos (- e)). lia.
      * rewrite <- Z.pow_add_r by lia. f_equal. lia.
    + replace (10 ^ (- e)) with (10 ^ (- (e + k)) * 10 ^ k).
      * apply Z.div_mul_cancel_r; [|lia].
        pose proof (pow10_pos (- (e + k))). lia.
      * rewrite <- Z.pow_add_r by lia. f_equal. lia.
Qed.

Lemma trunc_val_small (c e n : Z) :
  0 <= c < 10 ^ n -> e <= - n -> trunc_val c e = 0.
Proof.
  intros [Hc Hn] He. unfold trunc_val.
  destruct (Z.eq_dec c 0) as [->|Hnz].
  { destruct (0 <=? e); [apply Z.mul_0_l|apply Zdiv_0_l]. }
  assert (0 <= n).
  { destruct (Z.le_gt_cases 0 n); [assumption|].
    rewrite Z.pow_neg_r in Hn by lia. lia. }
  destruct (Z.leb_spec 0 e) as [He0|He0].
  - assert (n = 0) by lia. subst n. cbn in Hn. lia.
  - apply Z.div_small.
    assert (10 ^ n <= 10 ^ (- e)) by (apply Z.pow_le_mono_r; lia). lia.
Qed.

End DecimalFacts.

Section FixFacts.
Import Decimal.

Lemma round_exact (p k : Z) :
  1 <= k -> p mod 10 ^ k = 0 -> round_half_even p k = 0.
Proof.
  intros Hk Hr. unfold round_half_even. rewrite Hr.
  pose proof (pow10_pos (k - 1) ltac:(lia)).
  destruct (Z.eqb_spec 0 (5 * 10 ^ (k - 1))); [lia|]. cbn [andb].
  destruct (Z.leb_spec (5 * 10 ^ (k - 1)) 0); [lia|]. reflexivity.
Qed.

Lemma round_changed_bound (p k : Z) : round_half_even p k <= 1.
Proof.
  unfold round_half_even.
  destruct ((p mod 10 ^ k =? 5 * 10 ^ (k - 1)) && Z.even (p / 10 ^ k)); [lia|].
  destruct (5 * 10 ^ (k - 1) <=? p mod 10 ^ k); [lia|].
  destruct (p mod 10 ^ k =? 0); lia.
Qed.

(** The decimal [_fix] returns for the product of an amount of at most
    28 significant digits with [10^18]: it has the same integer part. *)
Lemma fix_product (s : bool) (c e : Z) :
  0 < c < 10 ^ 28 -> e <= 999954 ->
  exists c' e',
    fix_ (Finite s (c * 10 ^ 18) e) = inr (Finite s c' e') /\
    0 <= c' /\ trunc_val c' e' = trunc_val c (e + 18).
Proof.
  intros [Hc0 Hc] He.
  destruct (ndigits_spec c Hc0) as (Hn1 & Hlo & Hhi).
  assert (Hn28 : ndigits c <= 28) by (apply ndigits_le; assumption).
  assert (HP : 0 < c * 10 ^ 18) by (pose proof (pow10_pos 18); lia).
  assert (HL : ndigits (c * 10 ^ 18) = ndigits c + 18)
    by (apply ndigits_mul_pow10; lia).
  rewrite <- (trunc_val_shift c e 18) by lia.
  set (P := c * 10 ^ 18) in *.
  set (n := ndigits c) in *.
  unfold fix_. rewrite HL.
  destruct (Z.eqb_spec P 0) as [|_]; [lia|].
  change prec with 28. change Etop with 999972. change Etiny with (-1000026).
  destruct (Z.ltb_spec 999972 (n + 18 + e - 28)) as [|_]; [lia|].
  destruct (Z.ltb_spec (n + 18 + e - 28) (-1000026)) as [Hsub|Hnorm].
  - (* subnormal *)
    destruct (Z.ltb_spec e (-1000026)) as [Hlow|Hhigh].
    + assert (HP46 : P < 10 ^ 46).
      { unfold P. change (10 ^ 46) with (10 ^ 28 * 10 ^ 18).
        apply Z.mul_lt_mono_pos_r; [apply pow10_pos|]; lia. }
      assert (HPe : trunc_val P e = 0)
        by (apply (trunc_val_small P e 46); lia).
      rewrite HPe.
      assert (Hc0' : exists c0 digits,
                (if n + 18 + e - -1000026 <? 0 then (1, 0)
                 else (P, n + 18 + e - -1000026)) = (c0, digits) /\
                0 < c0 <= P /\ 1 <= ndigits c0 - digits).
      { destruct (Z.ltb_spec (n + 18 + e - -1000026) 0).
        - exists 1, 0. change (ndigits 1) with 1. repeat split; lia.
        - exists P, (n + 18 + e - -1000026). rewrite HL.
          repeat split; lia. }
      destruct Hc0' as (c0 & digits & -> & Hc0r & Hk).
      set (k := ndigits c0 - digits) in *.
      pose proof (pow10_pos k ltac:(lia)) as H10k.
      assert (Hq : 0 <= c0 / 10 ^ k <= P).
      { split; [apply Z.div_pos; lia|].
        apply Z.le_trans with c0; [|lia].
        apply Z.div_le_upper_bound; nia. }
      assert (Hq10 : 0 <= (c0 / 10 ^ k + 1) / 10 <= P + 1).
      { split; [apply Z.div_pos; lia|].
        apply Z.div_le_upper_bound; lia. }
      assert (H47 : 10 ^ 46 + 1 <= 10 ^ 47) by (vm_compute; discriminate).
      destruct (0 <? round_half_even c0 k).
      * destruct (28 <? ndigits (c0 / 10 ^ k + 1)).
        -- change (999972 <? -1000026 + 1) with false. cbv iota beta.
           exists ((c0 / 10 ^ k + 1) / 10), (-1000026 + 1).
           repeat split; [lia|].
           apply (trunc_val_small _ _ 47); lia.
        -- change (999972 <? -1000026) with false. cbv iota beta.
           exists (c0 / 10 ^ k + 1), (-1000026).
           repeat split; [lia|].
           apply (trunc_val_small _ _ 47); lia.
      * change (999972 <? -1000026) with false. cbv iota beta.
        exists (c0 / 10 ^ k), (-1000026).
        repeat split; [lia|].
        apply (trunc_val_small _ _ 47); lia.
    + exists P, e. repeat split; lia.
  - destruct (Z.ltb_spec e (n + 18 + e - 28)) as [Hround|Hfits].
    + replace (n + 18 + e - (n + 18 + e - 28)) with 28 by lia.
      change (28 <? 0) with false. cbv iota beta.
      rewrite HL.
      set (k := n + 18 - 28).
      assert (Hk : 1 <= k <= 18) by (unfold k; lia).
      assert (HPk : P = c * 10 ^ (18 - k) * 10 ^ k).
      { unfold P. rewrite <- Z.mul_assoc, <- Z.pow_add_r by lia.
        do 2 f_equal. lia. }
      assert (Hdiv : P / 10 ^ k = c * 10 ^ (18 - k)).
      { rewrite HPk. apply Z.div_mul. pose proof (pow10_pos k); lia. }
      assert (Hmod : P mod 10 ^ k = 0).
      { rewrite HPk. apply Z.mod_mul. pose proof (pow10_pos k); lia. }
      rewrite (round_exact P k) by lia.
      change (0 <? 0) with false. cbv iota beta.
      destruct (Z.ltb_spec 999972 (n + 18 + e - 28)) as [|_]; [lia|].
      exists (P / 10 ^ k), (n + 18 + e - 28).
      pose proof (pow10_pos (18 - k) ltac:(lia)).
      split; [reflexivity|]. split; [rewrite Hdiv; lia|].
      rewrite Hdiv.
      replace (trunc_val P e) with (trunc_val (c * 10 ^ (18 - k)) (e + k)).
      * f_equal. unfold k. lia.
      * rewrite <- trunc_val_shift by lia. now rewrite <- HPk.
    + exists P, e. repeat split; lia.
Qed.
End FixFacts.

Section WeiFacts.
Import Decimal.

Lemma mul_by_wei (s : bool) (c e : Z) :
  mul (Finite s c e) (of_int (10 ^ 18)) = fix_ (Finite s (c * 10 ^ 18) e).
Proof.
  change (of_int (10 ^ 18)) with (Finite false (10 ^ 18) 0).
  unfold mul. now rewrite xorb_false_r, Z.add_0_r.
Qed.

(** The conversion truncates the exact amount of wei, for every finite
    amount of at most 28 significant digits. *)
Lemma eth_to_wei_truncates (s : bool) (c e : Z) :
  0 <= c < 10 ^ 28 -> e <= 999954 ->
  eth_to_wei (Finite s c e) = inr (truncated_wei s c e).
Proof.
  intros [Hc0 Hc] He. unfold eth_to_wei, truncated_wei. rewrite mul_by_wei.
  destruct (Z.eq_dec c 0) as [->|Hnz].
  - unfold fix_. change (0 * 10 ^ 18 =? 0) with true. cbv iota.
    rewrite to_int_finite by lia. f_equal. f_equal.
    unfold trunc_val.
    destruct (0 <=? Z.min (Z.max e Etiny) Emax), (0 <=? e + 18);
      rewrite ?Z.mul_0_l, ?Zdiv_0_l; reflexivity.
  - destruct (fix_product s c e) as (c' & e' & -> & Hc' & Hv); [lia|lia|].
    rewrite to_int_finite by assumption. now rewrite Hv.
Qed.

(** Truncation toward zero, written with the quotient that rounds
    toward zero. *)
Lemma truncated_wei_quot (s : bool) (c e : Z) :
  0 <= c -> e <= 0 ->
  truncated_wei s c e = Z.quot (sign_value s * c * 10 ^ 18) (10 ^ (- e)).
Proof.
  intros Hc He. unfold truncated_wei.
  pose proof (pow10_pos 18 ltac:(lia)) as H18.
  pose proof (pow10_pos (- e) ltac:(lia)) as Hd.
  assert (Hpos : trunc_val c (e + 18) = Z.quot (c * 10 ^ 18) (10 ^ (- e))).
  { rewrite Z.quot_div_nonneg by nia.
    rewrite <- trunc_val_shift by lia. unfold trunc_val.
    destruct (Z.leb_spec 0 e); [|reflexivity].
    assert (e = 0) as -> by lia.
    change (10 ^ (- 0)) with 1. change (10 ^ 0) with 1.
    rewrite Z.div_1_r. lia. }
  destruct s; unfold sign_value.
  - rewrite Hpos.
    replace (-1 * c * 10 ^ 18) with (- (c * 10 ^ 18)) by lia.
    rewrite Z.quot_opp_l by lia. lia.
  - rewrite Hpos.
    replace (1 * c * 10 ^ 18) with (c * 10 ^ 18) by lia.
    apply Z.mul_1_l.
Qed.

End WeiFacts.

(* ================================================================== *)
(** * Amounts in ETH *)
(* ================================================================== *)

Section EthAmounts.
Context {I : Interp} {C : Collaborators}.

Lemma withdraw_amount (to_addr token : string) (wei : Z) (w : wallet_state) :
  is_token to_addr = true -> is_token token = true ->
  amount_wei_of token = inr wei ->
  parse_withdraw_args (join [to_addr; token]) w =
  withdraw_from_contract to_addr wei w.
Proof.
  intros Ha Ht Hw. unfold parse_withdraw_args.
  rewrite split_strip, split_join by (simpl; now rewrite Ha, Ht).
  cbn. now rewrite Hw.
Qed.

Lemma deposit_eth_run (amount_str : string) (x : float) (d : Decimal.t)
  (w : wallet_state) :
  float_of_str amount_str = inr x ->
  Decimal.of_str (str_of_float x) = inr d ->
  deposit_eth_func amount_str w =
  invoke_contract_function "deposit" None d w.
Proof.
  intros Hx Hd.
  unfold deposit_eth_func, deposit_to_contract, bind, lift, ret.
  rewrite Hx. cbn. rewrite Hd. cbn.
  destruct (invoke_contract_function "deposit" None d w) as [r f evs].
  cbn. destruct r; reflexivity.
Qed.

(** C3, as the code has it.  Take an amount [+-c * 10^e] that the
    decimal library can hold, with a coefficient of at most 28 digits
    ([0 <= c < 10^28]) and an exponent [e <= 999954]; every literal of
    at most 28 digits written without an exponent part is one.  It is
    converted to
    [truncated_wei s c e], that is [+-c * 10^(e+18)] with the fraction
    cut off: for [e <= 0] this is [(+-c * 10^18) quot 10^(-e)], the
    quotient that truncates toward zero, and with at most 18 fractional
    digits ([-18 <= e]) it is exactly [+-c * 10^(e+18)].
    [parse_withdraw_args] passes that integer as the amount of the
    call when [Decimal] reads the token as this amount;
    [invoke_contract_function] puts it in the ["value"] field when the
    amount is positive; and [deposit_eth] applies the conversion to the
    decimal text of the float it read from its input.  ["0.01"] is
    10000000000000000 wei. *)
Theorem decimal_amount_to_wei (s : bool) (c e : Z) :
  0 <= c < 10 ^ 28 -> Decimal.MIN_ETINY <= e <= 999954 ->
  let wei := truncated_wei s c e in
  eth_to_wei (Decimal.Finite s c e) = inr wei /\
  (e <= 0 ->
   wei = Z.quot (Decimal.sign_value s * c * 10 ^ 18) (10 ^ (- e))) /\
  (-18 <= e -> wei = Decimal.sign_value s * c * 10 ^ (e + 18)) /\
  (forall to_addr token w,
     is_token to_addr = true -> is_token token = true ->
     Decimal.of_str token = inr (Decimal.Finite s c e) ->
     parse_withdraw_args (join [to_addr; token]) w =
     withdraw_from_contract to_addr wei w) /\
  (forall function_name args w tx r,
     s = false -> 0 < c ->
     In (Ev_send_transaction tx r)
       (events (invoke_contract_function function_name args
                  (Decimal.Finite s c e) w)) ->
     dict_get "value" tx = Some (TxInt wei)) /\
  (forall amount_str x w,
     float_of_str amount_str = inr x ->
     Decimal.of_str (str_of_float x) = inr (Decimal.Finite s c e) ->
     deposit_eth_func amount_str w =
     invoke_contract_function "deposit" None (Decimal.Finite s c e) w) /\
  amount_wei_of "0.01" = inr 10000000000000000.
Proof.
  intros Hc [_ He]. cbv zeta.
  assert (Hwei : eth_to_wei (Decimal.Finite s c e) =
                 inr (truncated_wei s c e))
    by (apply eth_to_wei_truncates; lia).
  split; [exact Hwei|].
  split; [|split; [|split; [|split; [|split]]]].
  - intros He0. apply truncated_wei_quot; lia.
  - intros He18. unfold truncated_wei, trunc_val.
    destruct (Z.leb_spec 0 (e + 18)); lia.
  - intros to_addr token w Ha Ht Hd. apply withdraw_amount; try assumption.
    unfold amount_wei_of. now rewrite Hd.
  - intros function_name args w tx r Hs Hpos H.
    apply sent_request in H as (data & _ & Hreq).
    unfold request_for in Hreq. rewrite gt_zero_finite in Hreq. subst s.
    destruct (Z.eqb_spec c 0); [lia|]. cbn [negb andb] in Hreq.
    rewrite Hwei in Hreq. inversion Hreq. reflexivity.
  - intros amount_str x w. apply deposit_eth_run.
  - reflexivity.
Qed.

End EthAmounts.

(** C3 at work: ["0.01"] on the withdraw path and on the deposit path
    of the reference interpreter. *)
Lemma decimal_amount_to_wei_witness :
  parse_withdraw_args (C := accepting_wallet) "0xReceiver 0.01" 0 =
  withdraw_from_contract (C := accepting_wallet) "0xReceiver"
    10000000000000000 0 /\
  deposit_eth_func (I := cpython) (C := accepting_wallet) "0.01" 0 =
  invoke_contract_function (C := accepting_wallet) "deposit" None
    (Decimal.Finite false 1 (-2)) 0.
Proof.
  pose proof (decimal_amount_to_wei (I := cpython) (C := accepting_wallet)
                false 1 (-2) ltac:(vm_compute; split; congruence)
                ltac:(vm_compute; split; congruence))
    as (_ & _ & _ & Hwithdraw & _ & Hdeposit & _).
  split.
  - apply (Hwithdraw "0xReceiver" "0.01" 0); reflexivity.
  - apply (Hdeposit "0.01" (S754_finite false 5764607523034235 (-59)) 0);
      vm_compute; reflexivity.
Defined.

(** C3 does not hold of amounts with more than 28 significant digits:
    the product is rounded to 28 digits before the integer is taken, so
    31 nines after the point become a whole ETH, not 999999999999999999
    wei. *)
Lemma long_amount_is_rounded :
  Decimal.of_str "0.9999999999999999999999999999999" =
  inr (Decimal.Finite false 9999999999999999999999999999999 (-31)) /\
  amount_wei_of "0.9999999999999999999999999999999" =
  inr 1000000000000000000 /\
  Z.quot (9999999999999999999999999999999 * 10 ^ 18) (10 ^ 31) =
  999999999999999999 /\
  events (parse_withdraw_args (C := accepting_wallet)
            "0xReceiver 0.9999999999999999999999999999999" 0) =
  [ Ev_encode_abi "withdraw" [AStr "0xReceiver"; AInt 1000000000000000000]
      (inr "0xwithdraw/2");
    Ev_send_transaction (plain_request "0xwithdraw/2") (inr "0xhash0");
    Ev_wait_for_transaction_receipt "0xhash0" (inr tt) ].
Proof. repeat split; vm_compute; reflexivity. Qed.

(* ================================================================== *)
(** * Further properties of the helper methods *)
(* ================================================================== *)

Section InvokeShape.
Context {I : Interp} {C : Collaborators}.

Lemma invoke_returns_text (function_name : string) (args : option (list arg))
  (value : Decimal.t) (w : wallet_state) :
  exists s,
    result (invoke_contract_function function_name args value w) =
    inr (Text s).
Proof.
  rewrite invoke_contract_function_run. cbv zeta.
  destruct (encode_abi _ _ function_name _) as [e0|data]; [cbn; eauto|].
  destruct (request_for value data) as [e0|tx]; [cbn; eauto|].
  destruct (send_transaction tx w) as [[e0|h0] w1]; [cbn; eauto|].
  destruct (wait_for_transaction_receipt h0 w1) as [[e0|[]] w2]; cbn; eauto.
Qed.

Lemma read_returns (function_name : string) (args : option (list arg))
  (w : wallet_state) :
  exists v, result (read_contract_function function_name args w) = inr v.
Proof.
  rewrite read_contract_function_run. cbv zeta.
  destruct (read_contract _ _ function_name _ w) as [[e|v] w']; cbn; eauto.
Qed.

Lemma invoke_call_sequence_shape (function_name : string)
  (args : option (list arg)) (value : Decimal.t) (w : wallet_state) :
  (exists r,
     events (invoke_contract_function function_name args value w) =
     [Ev_encode_abi function_name (args_or_empty args) r]) \/
  (exists data tx e,
     events (invoke_contract_function function_name args value w) =
     [Ev_encode_abi function_name (args_or_empty args) (inr data);
      Ev_send_transaction tx (inl e)]) \/
  (exists data tx tx_hash r,
     events (invoke_contract_function function_name args value w) =
     [Ev_encode_abi function_name (args_or_empty args) (inr data);
      Ev_send_transaction tx (inr tx_hash);
      Ev_wait_for_transaction_receipt tx_hash r]).
Proof.
  rewrite invoke_contract_function_run. cbv zeta.
  destruct (encode_abi _ _ function_name _) as [e0|data]; [cbn; eauto|].
  destruct (request_for value data) as [e0|tx]; [cbn; eauto|].
  destruct (send_transaction tx w) as [[e0|h0] w1].
  { right. left. cbn. eauto. }
  right. right.
  destruct (wait_for_transaction_receipt h0 w1) as [[e0|[]] w2];
    cbn; eauto 8.
Qed.

(** One invocation talks to the collaborators in a fixed order and at
    most once each: it encodes; only with call data in hand it sends
    one transaction, the one built from that data; only with a hash in
    hand it waits, for the receipt of that very hash.  It never reads
    the contract. *)
Theorem invoke_call_sequence (function_name : string)
  (args : option (list arg)) (value : Decimal.t) (w : wallet_state) :
  let evs := events (invoke_contract_function function_name args value w) in
  let a := args_or_empty args in
  (exists r, evs = [Ev_encode_abi function_name a r]) \/
  (exists data tx e,
     request_for value data = inr tx /\
     evs = [Ev_encode_abi function_name a (inr data);
            Ev_send_transaction tx (inl e)]) \/
  (exists data tx tx_hash r,
     request_for value data = inr tx /\
     evs = [Ev_encode_abi function_name a (inr data);
            Ev_send_transaction tx (inr tx_hash);
            Ev_wait_for_transaction_receipt tx_hash r]).
Proof.
  cbv zeta. rewrite invoke_contract_function_run. cbv zeta.
  destruct (encode_abi _ _ function_name _) as [e0|data]; [cbn; eauto|].
  destruct (request_for value data) as [e0|tx] eqn:Hreq; [cbn; eauto|].
  destruct (send_transaction tx w) as [[e0|h0] w1].
  { right. left. cbn. eauto. }
  right. right.
  destruct (wait_for_transaction_receipt h0 w1) as [[e0|[]] w2];
    cbn; eauto 8.
Qed.

(** A value that is positive but no number of wei stops the invocation
    before anything is sent: for a NaN or the positive infinity (what
    [deposit_eth] passes on for the inputs ["nan"] and ["inf"]) the
    result is an error text, the only call made is the encoding, and
    the wallet provider's state is untouched. *)
Theorem special_value_sends_nothing (function_name : string)
  (args : option (list arg)) (value : Decimal.t) (w : wallet_state) :
  (exists s sig, value = Decimal.NaN s sig) \/ value = Decimal.Infinity false ->
  let o := invoke_contract_function function_name args value w in
  (exists e, result o = inr (Text (invoke_error_text function_name e))) /\
  (exists r, events o = [Ev_encode_abi function_name (args_or_empty args) r]) /\
  final o = w.
Proof.
  intros Hsp. cbv zeta. rewrite invoke_contract_function_run. cbv zeta.
  destruct (encode_abi _ _ function_name _) as [e0|data]; [cbn; eauto|].
  assert (Hreq : exists e, request_for value data = inl e).
  { destruct Hsp as [(s & sig & ->)| ->]; cbn; eauto. }
  destruct Hreq as (e & ->). cbn. eauto.
Qed.

End InvokeShape.

Lemma special_value_sends_nothing_witness :
  exists r,
    events (invoke_contract_function (C := accepting_wallet) "deposit" None
              (Decimal.Infinity false) 0) =
    [Ev_encode_abi "deposit" [] r].
Proof.
  apply (proj1 (proj2 (special_value_sends_nothing (C := accepting_wallet)
                         "deposit" None (Decimal.Infinity false) 0
                         (or_intror eq_refl)))).
Defined.

(* ================================================================== *)
(** * Further properties of the parsers and the tools *)
(* ================================================================== *)

Section ToolTotality.
Context {I : Interp} {C : Collaborators}.

Lemma deposit_erc20_returns (s : string) (w : wallet_state) :
  exists v, result (parse_deposit_erc20_args s w) = inr v.
Proof.
  unfold parse_deposit_erc20_args.
  destruct (PyStr.split (PyStr.strip s)) as [|a [|b [|c l]]]; cbn; eauto.
  destruct (PyInt.of_str int_max_str_digits b) as [e|n] eqn:Hb.
  - rewrite (int_raises_ValueError _ _ _ Hb). cbn. eauto.
  - destruct (invoke_returns_text "depositERC20"
                (Some [AStr a; AInt n]) default_value w) as (t & Ht).
    unfold deposit_erc20_to_contract. rewrite Ht. eauto.
Qed.

Lemma withdraw_returns (s : string) (w : wallet_state) :
  exists v, result (parse_withdraw_args s w) = inr v.
Proof.
  unfold parse_withdraw_args.
  destruct (PyStr.split (PyStr.strip s)) as [|a [|b [|c l]]]; cbn; eauto.
  destruct (amount_wei_of b) as [e|n]; [cbn; eauto|].
  destruct (invoke_returns_text "withdraw"
              (Some [AStr a; AInt n]) default_value w) as (t & Ht).
  unfold withdraw_from_contract. rewrite Ht. eauto.
Qed.

Lemma withdraw_erc20_returns (s : string) (w : wallet_state) :
  exists v, result (parse_withdraw_erc20_args s w) = inr v.
Proof.
  unfold parse_withdraw_erc20_args.
  destruct (PyStr.split (PyStr.strip s)) as [|a [|b [|c [|d l]]]]; cbn; eauto.
  destruct (PyInt.of_str int_max_str_digits c) as [e|n]; [cbn; eauto|].
  destruct (invoke_returns_text "withdrawERC20"
              (Some [AStr a; AStr b; AInt n]) default_value w) as (t & Ht).
  unfold withdraw_erc20_from_contract. rewrite Ht. eauto.
Qed.

Lemma erc20_balance_returns (s : string) (w : wallet_state) :
  exists v, result (parse_erc20_balance_args s w) = inr v.
Proof.
  unfold parse_erc20_balance_args.
  destruct (PyStr.is_empty (PyStr.strip s)); [cbn; eauto|].
  apply read_returns.
Qed.

(** Every tool of the catalogue other than [deposit_eth] returns a
    value on every input and from every state: none of them lets an
    exception out.  In the parsers the unpacking of [parts] cannot
    fail, since it comes after the length check, and [int] raises
    nothing that [except ValueError] misses. *)
Theorem tools_never_raise (t : Tool) (s : string) (w : wallet_state) :
  In t custom_contract_tools -> name t <> "deposit_eth" ->
  exists v, result (func t s w) = inr v.
Proof.
  intros Ht Hn. in_cases Ht; cbn [func name] in *.
  - contradiction.
  - apply deposit_erc20_returns.
  - destruct (invoke_returns_text "incrementCounter" None default_value w)
      as (x & Hx).
    unfold increment_counter. rewrite Hx. eauto.
  - apply read_returns.
  - apply read_returns.
  - apply erc20_balance_returns.
  - apply withdraw_returns.
  - apply withdraw_erc20_returns.
Qed.

(** [deposit_eth] raises exactly what [float] raises on its input, or
    what [Decimal] raises on the text of the float, and then no call
    has been made; in every other case it returns a text. *)
Theorem deposit_eth_raises (amount_str : string) (w : wallet_state) :
  (forall e, float_of_str amount_str = inl e ->
     deposit_eth_func amount_str w = Outcome (inl e) w []) /\
  (forall x e, float_of_str amount_str = inr x ->
     Decimal.of_str (str_of_float x) = inl e ->
     deposit_eth_func amount_str w = Outcome (inl e) w []) /\
  (forall x d, float_of_str amount_str = inr x ->
     Decimal.of_str (str_of_float x) = inr d ->
     exists s, result (deposit_eth_func amount_str w) = inr (Text s)).
Proof.
  split; [|split].
  - intros e He. unfold deposit_eth_func, bind, lift, raise.
    now rewrite He.
  - intros x e Hx He.
    unfold deposit_eth_func, deposit_to_contract, bind, lift, raise, ret.
    rewrite Hx. cbn. now rewrite He.
  - intros x d Hx Hd. rewrite (deposit_eth_run _ _ _ _ Hx Hd).
    apply invoke_returns_text.
Qed.

(** The three read tools only ever read: each call they make is a
    [read_contract] call, so they encode nothing, send nothing and
    wait for nothing.  The five other tools never read. *)
Theorem read_tools_only_read (t : Tool) (s : string) (w : wallet_state)
  (ev : event) :
  In t custom_contract_tools -> In ev (events (func t s w)) ->
  if existsb (String.eqb (name t))
       ["get_contract_balance"; "get_contract_counter";
        "get_contract_erc20_balance"]
  then exists f a r, ev = Ev_read_contract f a r
  else forall f a r, ev <> Ev_read_contract f a r.
Proof.
  assert (Hinv : forall f a v,
            In ev (events (invoke_contract_function f a v w)) ->
            forall g b r, ev <> Ev_read_contract g b r).
  { intros f a v H g b r ->.
    destruct (invoke_call_sequence_shape f a v w) as [(r1 & Hs)|[Hs|Hs]].
    - rewrite Hs in H. in_cases H.
    - destruct Hs as (d & tx & e & Hs). rewrite Hs in H. in_cases H.
    - destruct Hs as (d & tx & h & r2 & Hs). rewrite Hs in H. in_cases H. }
  assert (Hread : forall f a,
            In ev (events (read_contract_function f a w)) ->
            exists g b r, ev = Ev_read_contract g b r).
  { intros f a H. destruct (read_events f a w) as (r & Hr).
    rewrite Hr in H. in_cases H. eauto. }
  intros Ht. in_cases Ht; cbn [func name existsb String.eqb Ascii.eqb Bool.eqb orb];
    cbn; intros Hev.
  - unfold deposit_eth_func, deposit_to_contract, bind, lift, raise, ret in Hev.
    destruct (float_of_str s) as [e|x]; cbn in Hev; [contradiction|].
    destruct (Decimal.of_str (str_of_float x)) as [e|d]; cbn in Hev;
      [contradiction|].
    eapply Hinv. apply Hev.
  - unfold parse_deposit_erc20_args in Hev.
    destruct (PyStr.split (PyStr.strip s)) as [|a [|b [|c l]]]; cbn in Hev;
      try contradiction.
    destruct (PyInt.of_str int_max_str_digits b) as [e|n].
    + destruct (isinstance e ValueError); cbn in Hev; contradiction.
    + eapply Hinv. apply Hev.
  - eapply Hinv. apply Hev.
  - eapply Hread. apply Hev.
  - eapply Hread. apply Hev.
  - unfold parse_erc20_balance_args in Hev.
    destruct (PyStr.is_empty (PyStr.strip s)); [cbn in Hev; contradiction|].
    eapply Hread. apply Hev.
  - unfold parse_withdraw_args in Hev.
    destruct (PyStr.split (PyStr.strip s)) as [|a [|b [|c l]]]; cbn in Hev;
      try contradiction.
    destruct (amount_wei_of b) as [e|n]; [cbn in Hev; contradiction|].
    eapply Hinv. apply Hev.
  - unfold parse_withdraw_erc20_args in Hev.
    destruct (PyStr.split (PyStr.strip s)) as [|a [|b [|c [|d l]]]];
      cbn in Hev; try contradiction.
    destruct (PyInt.of_str int_max_str_digits c) as [e|n];
      [cbn in Hev; contradiction|].
    eapply Hinv. apply Hev.
Qed.

End ToolTotality.

Lemma tools_never_raise_witness :
  exists v,
    result (parse_withdraw_args (C := refusing_wallet) "0xReceiver 0.5" 0)
    = inr v.
Proof.
  apply (tools_never_raise (I := cpython) (C := refusing_wallet)
           (MkTool "withdraw"
              "Withdraw native ETH from the custom contract. Provide 'TO_ADDRESS AMOUNT_IN_ETH'. Example: '0xReceiver 0.01'"
              parse_withdraw_args)
           "0xReceiver 0.5" 0).
  - cbn. do 6 right. left. reflexivity.
  - discriminate.
Defined.

Lemma deposit_eth_raises_witness :
  deposit_eth_func (I := cpython) (C := accepting_wallet) "0.1 0.2" 0 =
  Outcome (C := accepting_wallet)
    (inl (Exn ValueError "could not convert string to float: '0.1 0.2'")) 0 [].
Proof.
  apply (proj1 (deposit_eth_raises (I := cpython) (C := accepting_wallet)
                  "0.1 0.2" 0)).
  reflexivity.
Defined.

Lemma read_tools_only_read_witness :
  exists f a r,
    Ev_read_contract (C := accepting_wallet) "getCounter" [] (inr 4) =
    Ev_read_contract f a r.
Proof.
  apply (read_tools_only_read (I := cpython) (C := accepting_wallet)
           (MkTool "get_contract_counter"
              "Get the current counter value of the custom smart contract (no arguments)."
              (fun _ => get_contract_counter))
           "anything" 4).
  - cbn. do 4 right. left. reflexivity.
  - cbn. left. reflexivity.
Defined.

Section TokenDependence.
Context {I : Interp} {C : Collaborators}.

(** The three parsers of several tokens see their input only through
    its tokens: two inputs with the same tokens, however the whitespace
    between and around them differs, are treated alike. *)
Theorem parsers_see_tokens_only (s s' : string) (w : wallet_state) :
  PyStr.split s = PyStr.split s' ->
  parse_deposit_erc20_args s w = parse_deposit_erc20_args s' w /\
  parse_withdraw_args s w = parse_withdraw_args s' w /\
  parse_withdraw_erc20_args s w = parse_withdraw_erc20_args s' w.
Proof.
  intros H.
  unfold parse_deposit_erc20_args, parse_withdraw_args,
    parse_withdraw_erc20_args.
  rewrite !split_strip, H. auto.
Qed.

(** [withdraw] answers an amount that is no decimal number, a NaN or
    an infinity with its decimal error text, and makes no call. *)
Theorem withdraw_rejects_bad_amount (input_str to_addr amount_str : string)
  (w : wallet_state) :
  PyStr.split input_str = [to_addr; amount_str] ->
  (exists e, Decimal.of_str amount_str = inl e) \/
  (exists s sig, Decimal.of_str amount_str = inr (Decimal.NaN s sig)) \/
  (exists s, Decimal.of_str amount_str = inr (Decimal.Infinity s)) ->
  parse_withdraw_args input_str w =
  Outcome (inr (Text "Error: Amount must be a valid decimal, e.g. 0.01")) w [].
Proof.
  intros Hs Hbad. unfold parse_withdraw_args. rewrite split_strip, Hs. cbn.
  assert (Hw : exists e, amount_wei_of amount_str = inl e).
  { unfold amount_wei_of.
    destruct Hbad as [(e & ->)|[(s & sig & ->)|(s & ->)]]; [eauto| |].
    - destruct sig; cbn; eauto.
    - cbn. eauto. }
  destruct Hw as (e & ->). reflexivity.
Qed.

End TokenDependence.

Lemma parsers_see_tokens_only_witness :
  parse_withdraw_args (C := accepting_wallet) "0xReceiver 0.01" 0 =
  parse_withdraw_args (C := accepting_wallet)
    (String (PyStr.chr 9) "0xReceiver   0.01  ") 0.
Proof.
  apply (proj1 (proj2 (parsers_see_tokens_only (I := cpython)
                         (C := accepting_wallet) "0xReceiver 0.01"
                         (String (PyStr.chr 9) "0xReceiver   0.01  ") 0
                         eq_refl))).
Defined.

Lemma withdraw_rejects_bad_amount_witness :
  parse_withdraw_args (C := accepting_wallet) "0xReceiver Infinity" 0 =
  Outcome (C := accepting_wallet)
    (inr (Text "Error: Amount must be a valid decimal, e.g. 0.01")) 0 [].
Proof.
  apply (withdraw_rejects_bad_amount (C := accepting_wallet)
           "0xReceiver Infinity" "0xReceiver" "Infinity" 0 eq_refl).
  right. right. exists false. reflexivity.
Defined.

(* ================================================================== *)
(** * Amounts at the edges of the conversion *)
(* ================================================================== *)

Section EdgeAmounts.
Context {I : Interp} {C : Collaborators}.

Lemma eth_to_wei_overflows (s : bool) (c e : Z) :
  0 < c -> 999982 < e + Decimal.ndigits c ->
  eth_to_wei (Decimal.Finite s c e) = inl Decimal.overflow.
Proof.
  intros Hc He. unfold eth_to_wei. rewrite mul_by_wei.
  pose proof (pow10_pos 18 ltac:(lia)) as H18.
  unfold Decimal.fix_.
  destruct (Z.eqb_spec (c * 10 ^ 18) 0) as [|_]; [nia|].
  rewrite ndigits_mul_pow10 by lia.
  change Decimal.prec with 28. change Decimal.Etop with 999972.
  destruct (Z.ltb_spec 999972 (Decimal.ndigits c + 18 + e - 28)); [|lia].
  reflexivity.
Qed.

(** An amount too large for the decimal context is refused by
    [withdraw]: when the product with [10^18] would have more than
    1000000 digits before the point, the multiplication overflows, and
    the tool returns its decimal error text without any call. *)
Theorem withdraw_amount_overflow (to_addr token : string) (s : bool)
  (c e : Z) (w : wallet_state) :
  is_token to_addr = true -> is_token token = true ->
  Decimal.of_str token = inr (Decimal.Finite s c e) ->
  0 < c -> 999982 < e + Decimal.ndigits c ->
  parse_withdraw_args (join [to_addr; token]) w =
  Outcome (inr (Text "Error: Amount must be a valid decimal, e.g. 0.01")) w [].
Proof.
  intros Ha Ht Hd Hc He. unfold parse_withdraw_args.
  rewrite split_strip, split_join by (simpl; now rewrite Ha, Ht).
  cbn. unfold amount_wei_of. rewrite Hd.
  now rewrite eth_to_wei_overflows.
Qed.

(** A positive amount below one wei is not refused: its conversion is
    0, and the transaction is sent with a ["value"] field of 0. *)
Theorem dust_amount_sends_zero (c e : Z) :
  0 < c < 10 ^ 28 -> e <= 0 -> c < 10 ^ (- (e + 18)) ->
  eth_to_wei (Decimal.Finite false c e) = inr 0 /\
  (forall function_name args w tx r,
     In (Ev_send_transaction tx r)
       (events (invoke_contract_function function_name args
                  (Decimal.Finite false c e) w)) ->
     dict_get "value" tx = Some (TxInt 0)).
Proof.
  intros Hc He Hsmall.
  assert (Hneg : e + 18 < 0).
  { destruct (Z.lt_ge_cases (e + 18) 0); [assumption|exfalso].
    destruct (Z.eq_dec (e + 18) 0) as [Hz|Hz].
    - rewrite Hz in Hsmall. cbn in Hsmall. lia.
    - rewrite Z.pow_neg_r in Hsmall by lia. lia. }
  assert (Hwei : eth_to_wei (Decimal.Finite false c e) = inr 0).
  { rewrite eth_to_wei_truncates by lia. f_equal.
    unfold truncated_wei, trunc_val.
    destruct (Z.leb_spec 0 (e + 18)); [lia|].
    rewrite Z.div_small by lia. reflexivity. }
  split; [exact Hwei|].
  intros function_name args w tx r H.
  apply sent_request in H as (data & _ & Hreq).
  unfold request_for in Hreq. rewrite gt_zero_finite in Hreq.
  destruct (Z.eqb_spec c 0); [lia|]. cbn [negb andb] in Hreq.
  rewrite Hwei in Hreq. inversion Hreq. reflexivity.
Qed.

End EdgeAmounts.

Lemma withdraw_amount_overflow_witness :
  parse_withdraw_args (C := accepting_wallet) "0xReceiver 5e999999" 0 =
  Outcome (C := accepting_wallet)
    (inr (Text "Error: Amount must be a valid decimal, e.g. 0.01")) 0 [].
Proof.
  apply (withdraw_amount_overflow (C := accepting_wallet)
           "0xReceiver" "5e999999" false 5 999999 0);
    vm_compute; reflexivity.
Defined.

Lemma dust_amount_sends_zero_witness :
  eth_to_wei (Decimal.Finite false 1 (-19)) = inr 0.
Proof.
  apply (proj1 (dust_amount_sends_zero (C := accepting_wallet) 1 (-19)
                  ltac:(vm_compute; split; congruence)
                  ltac:(lia) ltac:(reflexivity))).
Defined.

(* ================================================================== *)
(** * Choosing a mode *)
(* ================================================================== *)

Section ChooseMode.
Import Console.

Lemma choose_mode_skips (line : string) (rest : list string) :
  mode_of_line line = None ->
  choose_mode (line :: rest) =
  let '(r, out, unread) := choose_mode rest in
  (r, banner ++ [question; invalid_choice] ++ out, unread).
Proof.
  unfold mode_of_line. cbn [choose_mode].
  destruct (member (PyStr.strip (lower line)) ["1"; "chat"]); [discriminate|].
  destruct (member (PyStr.strip (lower line)) ["2"; "auto"]); [discriminate|].
  reflexivity.
Qed.

Lemma choose_mode_accepts (line : string) (rest : list string) (m : string) :
  mode_of_line line = Some m ->
  choose_mode (line :: rest) = (Returned m, banner ++ [question], rest).
Proof.
  unfold mode_of_line. cbn [choose_mode].
  destruct (member (PyStr.strip (lower line)) ["1"; "chat"]).
  - intros H. inversion H. reflexivity.
  - destruct (member (PyStr.strip (lower line)) ["2"; "auto"]);
      [|discriminate].
    intros H. inversion H. reflexivity.
Qed.

Lemma times_written_round (out : list string) :
  times_written invalid_choice (banner ++ [question; invalid_choice] ++ out) =
  S (times_written invalid_choice out).
Proof. reflexivity. Qed.

(** [choose_mode] asks until a line stands for a mode: it skips every
    line that stands for none, writing ["Invalid choice. Please try
    again."] once for each, returns the mode of the first line that
    stands for one, which is ["chat"] or ["auto"], and reads no line
    after it.  When the input ends before such a line, [input] raises
    [EOFError]. *)
Theorem choose_mode_first_valid (skipped : list string) :
  Forall (fun line => mode_of_line line = None) skipped ->
  (forall line rest m,
     mode_of_line line = Some m ->
     let '(r, out, unread) := choose_mode (skipped ++ line :: rest) in
     r = Returned m /\ (m = "chat" \/ m = "auto") /\ unread = rest /\
     times_written invalid_choice out = List.length skipped) /\
  fst (fst (choose_mode skipped)) = Raised_EOFError.
Proof.
  induction 1 as [|bad skipped Hbad _ IH].
  - split; [|reflexivity].
    intros line rest m Hm. cbn [app].
    rewrite (choose_mode_accepts _ _ _ Hm).
    repeat split.
    unfold mode_of_line in Hm.
    destruct (member _ ["1"; "chat"]); [inversion Hm; auto|].
    destruct (member _ ["2"; "auto"]); [inversion Hm; auto|discriminate].
  - destruct IH as [IHok IHeof]. split.
    + intros line rest m Hm. cbn [app].
      rewrite (choose_mode_skips _ _ Hbad).
      specialize (IHok line rest m Hm).
      destruct (choose_mode (skipped ++ line :: rest)) as [[r out] unread].
      destruct IHok as (Hr & Hmode & Hunread & Hcount).
      repeat split; try assumption.
      rewrite times_written_round. now rewrite Hcount.
    + rewrite (choose_mode_skips _ _ Hbad).
      destruct (choose_mode skipped) as [[r out] unread]. exact IHeof.
Qed.

End ChooseMode.

Lemma choose_mode_first_valid_witness :
  fst (fst (Console.choose_mode ["3"; "exit"; " CHAT "; "auto"])) =
  Console.Returned "chat".
Proof.
  pose proof (proj1 (choose_mode_first_valid ["3"; "exit"]
                       ltac:(repeat constructor))
                " CHAT " ["auto"] "chat" eq_refl) as H.
  cbn [app] in H.
  destruct (Console.choose_mode ["3"; "exit"; " CHAT "; "auto"])
    as [[r out] unread].
  exact (proj1 H).
Defined.

(* ================================================================== *)
(** * The arguments of the calls fit the ABI *)
(* ================================================================== *)

Section AbiArguments.
Context {I : Interp} {C : Collaborators}.

Lemma invoke_event_call (function_name : string) (args : option (list arg))
  (value : Decimal.t) (w : wallet_state) (ev : event) (f : string)
  (a : list arg) :
  In ev (events (invoke_contract_function function_name args value w)) ->
  event_call ev = Some (f, a) ->
  f = function_name /\ a = args_or_empty args.
Proof.
  intros H Hc.
  destruct (invoke_call_sequence_shape function_name args value w)
    as [(r & Hs)|[(d & tx & e & Hs)|(d & tx & h & r & Hs)]];
    rewrite Hs in H; in_cases H; cbn in Hc; inversion Hc; auto.
Qed.

Lemma read_event_call (function_name : string) (args : option (list arg))
  (w : wallet_state) (ev : event) (f : string) (a : list arg) :
  In ev (events (read_contract_function function_name args w)) ->
  event_call ev = Some (f, a) ->
  f = function_name /\ a = args_or_empty args.
Proof.
  intros H Hc. destruct (read_events function_name args w) as (r & Hr).
  rewrite Hr in H. in_cases H. cbn in Hc. inversion Hc. auto.
Qed.

Ltac unfold_wrappers H :=
  unfold deposit_erc20_to_contract, increment_counter, get_contract_balance,
    get_contract_counter, get_contract_erc20_balance, withdraw_from_contract,
    withdraw_erc20_from_contract in H.

(** Whatever the input, every call a tool makes that names a contract
    function passes arguments that fit the inputs the ABI declares for
    that function: the same number of arguments, a string where the ABI
    has an [address] and an integer where it has a [uint256], in the
    ABI's order. *)
Theorem tools_pass_abi_arguments (t : Tool) (s : string) (w : wallet_state)
  (ev : event) (f : string) (a : list arg) :
  In t custom_contract_tools ->
  In ev (events (func t s w)) ->
  event_call ev = Some (f, a) ->
  exists entry,
    abi_lookup SMART_CONTRACT_ABI f = Some entry /\
    args_fit a (abi_inputs entry) = true.
Proof.
  intros Ht. in_cases Ht; cbn [func]; intros Hev Hc.
  - unfold deposit_eth_func, deposit_to_contract, bind, lift, raise, ret
      in Hev.
    destruct (float_of_str s) as [e|x]; cbn in Hev; [contradiction|].
    destruct (Decimal.of_str (str_of_float x)) as [e|d]; cbn in Hev;
      [contradiction|].
    unfold_wrappers Hev.
    destruct (invoke_event_call _ _ _ _ _ _ _ Hev Hc) as [-> ->].
    eexists; split; reflexivity.
  - unfold parse_deposit_erc20_args in Hev.
    destruct (PyStr.split (PyStr.strip s)) as [|x [|y [|z l]]]; cbn in Hev;
      try contradiction.
    destruct (PyInt.of_str int_max_str_digits y) as [e|n].
    + destruct (isinstance e ValueError); cbn in Hev; contradiction.
    + unfold_wrappers Hev.
    destruct (invoke_event_call _ _ _ _ _ _ _ Hev Hc) as [-> ->].
      eexists; split; reflexivity.
  - unfold_wrappers Hev.
    destruct (invoke_event_call _ _ _ _ _ _ _ Hev Hc) as [-> ->].
    eexists; split; reflexivity.
  - unfold_wrappers Hev.
    destruct (read_event_call _ _ _ _ _ _ Hev Hc) as [-> ->].
    eexists; split; reflexivity.
  - unfold_wrappers Hev.
    destruct (read_event_call _ _ _ _ _ _ Hev Hc) as [-> ->].
    eexists; split; reflexivity.
  - unfold parse_erc20_balance_args in Hev.
    destruct (PyStr.is_empty (PyStr.strip s)); [cbn in Hev; contradiction|].
    unfold_wrappers Hev.
    destruct (read_event_call _ _ _ _ _ _ Hev Hc) as [-> ->].
    eexists; split; reflexivity.
  - unfold parse_withdraw_args in Hev.
    destruct (PyStr.split (PyStr.strip s)) as [|x [|y [|z l]]]; cbn in Hev;
      try contradiction.
    destruct (amount_wei_of y) as [e|n]; [cbn in Hev; contradiction|].
    unfold_wrappers Hev.
    destruct (invoke_event_call _ _ _ _ _ _ _ Hev Hc) as [-> ->].
    eexists; split; reflexivity.
  - unfold parse_withdraw_erc20_args in Hev.
    destruct (PyStr.split (PyStr.strip s)) as [|x [|y [|z [|u l]]]];
      cbn in Hev; try contradiction.
    destruct (PyInt.of_str int_max_str_digits z) as [e|n];
      [cbn in Hev; contradiction|].
    unfold_wrappers Hev.
    destruct (invoke_event_call _ _ _ _ _ _ _ Hev Hc) as [-> ->].
    eexists; split; reflexivity.
Qed.

End AbiArguments.

Lemma tools_pass_abi_arguments_witness :
  exists entry,
    abi_lookup SMART_CONTRACT_ABI "withdrawERC20" = Some entry /\
    args_fit [AStr "0xToken"; AStr "0xReceiver"; AInt 100] (abi_inputs entry)
    = true.
Proof.
  apply (tools_pass_abi_arguments (I := cpython) (C := accepting_wallet)
           (MkTool "withdraw_erc20"
              "Withdraw ERC20 tokens from the custom contract. Provide 'TOKEN_ADDRESS TO_ADDRESS AMOUNT'. Example: '0xSomeToken 0xReceiver 1000'"
              (parse_withdraw_erc20_args (I := cpython)))
           "0xToken 0xReceiver 100" 0
           (Ev_encode_abi "withdrawERC20"
              [AStr "0xToken"; AStr "0xReceiver"; AInt 100]
              (inr "0xwithdrawERC20/3"))).
  - cbn. do 7 right. left. reflexivity.
  - vm_compute. left. reflexivity.
  - reflexivity.
Defined.
